(** * employee_app.py: biometric attendance to ERPNext check-in synchronisation

    A shallow embedding of [src/employee_app.py] and the properties of its
    pipeline: the device client adapter ([fetch_biometric_data]), the
    employee directory fetcher ([fetch_employee_data]), the merge and filter
    engine ([process_and_merge_biometric_with_employee_data]), the delivery
    submitter ([push_data_to_erp]) and the scheduler ([main_loop]).

    The program talks to two outside parties, the biometric terminals (through
    the [zk] library) and the ERPNext REST API (through [requests]).  Both are
    modelled as a deterministic transition system [Outside] over an arbitrary
    state; every call the program makes is also appended to a trace of
    [event]s, so that "no submission attempt is made" is a statement about
    that trace. *)

From Stdlib Require Import String ZArith Bool Arith List Lia.
From Equations Require Import Equations.
Import ListNotations.
Open Scope string_scope.
Open Scope list_scope.
Open Scope Z_scope.

Set Implicit Arguments.

(** ** Data *)

(** A point in time, as pandas holds it in a [datetime64[ns]] column: the
    number of nanoseconds since the epoch. *)
Definition Timestamp := Z.

(** [attendance.__dict__] of a [zk] attendance object (line 26). *)
Record Attendance := {
  uid : Z;
  user_id : string;
  timestamp : Timestamp;
  status : Z;
  punch : Z
}.

(** One record of the ERPNext [Employee] resource, with the three fields the
    query of line 51 asks for.  Any of them may be JSON [null]. *)
Record Employee := {
  employee : option string;
  employee_name : option string;
  attendance_device_id : option string
}.

(** One entry of [devices] in [local_config]. *)
Record Device := {
  device_id : string;
  ip : string;
  port : Z
}.

(** A row of the merged frame [result_df]: the columns of the attendance
    frame (with [user_id] renamed and [shift] added) followed by those the
    roster brings.  [None] is pandas' NaN. *)
Record Row := {
  row_uid : Z;
  row_attendance_device_id : string;
  row_timestamp : Timestamp;
  row_status : Z;
  row_punch : Z;
  row_shift : string;
  row_employee : option string;
  row_employee_name : option string
}.

(** A data frame is the list of its rows, in order. *)
Definition DataFrame := list Row.

(** The JSON body of a check-in request (lines 143-147).  [time] stands for
    the ISO 8601 text of the timestamp. *)
Record Payload := {
  payload_employee : string;
  payload_time : Timestamp;
  payload_shift : string
}.

(** ** The outside world *)

(** Answer of [session.get] followed by [raise_for_status] and [json]:
    a [RequestException], or a JSON object whose ['data'] key is absent
    ([None]) or holds a page of records. *)
Inductive get_response :=
| GetException
| GetJson (data : option (list Employee)).

(** Answer of [requests.post]: a [RequestException] or a status code. *)
Inductive post_response :=
| PostException
| PostStatus (status_code : Z).

(** What the program prints, one constructor for each [print]. *)
Inductive message :=
| MsgFetched (n : nat) (ip : string)
| MsgErrorFetching (ip : string)
| MsgRosterError
| MsgSkippingDeviceError (device_id shift : string)
| MsgNoData (device_id shift : string)
| MsgNoUserId (device_id shift : string)
| MsgSkippingNaN
| MsgAdded (employee : string)
| MsgFailedStatus (employee : string) (status_code : Z)
| MsgRequestFailed (employee : string)
| MsgFailedPush (employee : string) (max_retries : Z)
| MsgProcessing (device_id shift : string)
| MsgSkippingDevice (device_id shift : string)
| MsgFrame (df : DataFrame)
| MsgCompleted.

(** What the program does to the outside, in the order it does it. *)
Inductive event :=
| Connect (ip : string) (port timeout : Z)
| GetAttendance (ip : string)
| Disconnect (ip : string)
| HttpGet (limit_start limit_page_length : Z)
| HttpPost (p : Payload)
| Sleep (seconds : Z)
| Print (m : message).

(** The terminals and the HR backend, as a transition system on a state
    [St].  [false] and [None] stand for a raised exception. *)
Record Outside (St : Type) := {
  zk_connect : string -> Z -> Z -> St -> bool * St;
  zk_get_attendance : string -> St -> option (list Attendance) * St;
  zk_disconnect : string -> St -> bool * St;
  session_get : Z -> Z -> St -> get_response * St;
  requests_post : Payload -> St -> post_response * St
}.

(** The constants of [local_config] the pipeline reads.  [START_DATE] and
    [END_DATE] are the points in time [pd.to_datetime] makes of them. *)
Record local_config := {
  devices : list Device;
  SHIFT : list string;
  START_DATE : Timestamp;
  END_DATE : Timestamp
}.

(** ** Results and the state of a run *)

Inductive exn :=
| ZeroDivisionError
| IndexError
| DeviceException.

(** A call returns, raises, or runs out of the fuel given to the one loop
    of the program that has no bound ([Diverge]). *)
Inductive res (A : Type) :=
| Ok (a : A)
| Raise (e : exn)
| Diverge.
Arguments Raise {A} e.
Arguments Diverge {A}.

Record world (St : Type) := {
  outside : St;
  trace : list event
}.

Definition M (St A : Type) := world St -> res A * world St.

Definition ret {St A} (a : A) : M St A := fun w => (Ok a, w).

Definition bind {St A B} (m : M St A) (k : A -> M St B) : M St B :=
  fun w =>
    match m w with
    | (Ok a, w1) => k a w1
    | (Raise e, w1) => (Raise e, w1)
    | (Diverge, w1) => (Diverge, w1)
    end.

Notation "x <- m ;; k" := (bind m (fun x => k))
  (at level 61, m at next level, right associativity).
Notation "m ;;; k" := (bind m (fun _ => k))
  (at level 61, right associativity).

Definition raise {St A} (e : exn) : M St A := fun w => (Raise e, w).

(** Append one event to the trace. *)
Definition emit {St} (e : event) (w : world St) : world St :=
  {| outside := outside w; trace := trace w ++ [e] |}.

Definition print {St} (m : message) : M St unit := fun w => (Ok tt, emit (Print m) w).
Definition sleep {St} (seconds : Z) : M St unit := fun w => (Ok tt, emit (Sleep seconds) w).

(** [l[i % len(l)]]: the modulo raises on an empty list. *)
Definition index_mod {St A} (l : list A) (i : nat) : M St A :=
  match l with
  | [] => raise ZeroDivisionError
  | _ => match nth_error l (i mod length l)%nat with
         | Some x => ret x
         | None => raise IndexError
         end
  end.

(** The HTTP status codes that count as success (line 157). *)
Definition status_ok (status_code : Z) : bool :=
  existsb (Z.eqb status_code) [200; 201].

(** The requests a trace posts to the check-in endpoint, in order. *)
Definition posts (t : list event) : list Payload :=
  flat_map (fun e => match e with HttpPost p => [p] | _ => [] end) t.

(** ** The program *)

Section Program.

Context {St : Type}.
Variable out : Outside St.
Variable cfg : local_config.

(** Calls to the outside: the call is recorded, the outside moves on. *)
Definition call {A} (e : event) (f : St -> A * St) (w : world St) : A * world St :=
  let '(a, s) := f (outside w) in
  (a, {| outside := s; trace := trace w ++ [e] |}).

(** *** Device client adapter (lines 13-26) *)

Definition fetch_biometric_data (ip : string) (port timeout : Z) : M St (list Attendance) :=
  fun w =>
    (* try: conn = zk.connect(); attendances = conn.get_attendance()
       except Exception: print(...) *)
    let '(conn, attendances, w2) :=
      match call (Connect ip port timeout) (zk_connect out ip port timeout) w with
      | (false, w1) => (false, [], emit (Print (MsgErrorFetching ip)) w1)
      | (true, w1) =>
          match call (GetAttendance ip) (zk_get_attendance out ip) w1 with
          | (None, w2) => (true, [], emit (Print (MsgErrorFetching ip)) w2)
          | (Some l, w2) => (true, l, emit (Print (MsgFetched (length l) ip)) w2)
          end
      end in
    (* finally: if conn: conn.disconnect() *)
    if conn : bool then
      match call (Disconnect ip) (zk_disconnect out ip) w2 with
      | (true, w3) => (Ok attendances, w3)
      | (false, w3) => (Raise DeviceException, w3)
      end
    else (Ok attendances, w2).

(** *** Employee directory fetcher (lines 30-80) *)

Definition limit_page_length : Z := 1000.

(** The [while True] of line 49.  Nothing bounds the number of pages, so the
    loop runs on [fuel]. *)
Fixpoint fetch_pages (fuel : nat) (limit_start : Z) (all_data : list Employee)
  : M St (list Employee) :=
  match fuel with
  | O => fun w => (Diverge, w)
  | S fuel' => fun w =>
      match call (HttpGet limit_start limit_page_length)
                 (session_get out limit_start limit_page_length) w with
      | (GetJson (Some so_data), w1) =>
          match so_data with
          | [] => (Ok all_data, w1)
          | _ => fetch_pages fuel' (limit_start + limit_page_length) (all_data ++ so_data) w1
          end
      | (GetJson None, w1) => (Ok all_data, w1)
      | (GetException, w1) => (Ok all_data, emit (Print MsgRosterError) w1)
      end
  end.

Definition fetch_employee_data (fuel : nat) : M St (list Employee) :=
  all_data <- fetch_pages fuel 0 [] ;;
  ret (match all_data with
       | [] => [] (* pd.DataFrame(columns=columns) *)
       | _ => all_data (* pd.json_normalize(all_data) *)
       end).

(** *** Merge and filter engine (lines 83-125) *)

(** The columns of [pd.DataFrame(device_data)]: the keys of an attendance
    [__dict__] and the [shift] added by line 101. *)
Definition df_columns : list string :=
  ["uid"; "user_id"; "timestamp"; "status"; "punch"; "shift"].

Definition merged_row (a : Attendance) (shift : string) (e : option Employee) : Row :=
  {| row_uid := uid a;
     row_attendance_device_id := user_id a;
     row_timestamp := timestamp a;
     row_status := status a;
     row_punch := punch a;
     row_shift := shift;
     row_employee := match e with Some e => employee e | None => None end;
     row_employee_name := match e with Some e => employee_name e | None => None end |}.

Definition key_matches (key : string) (e : Employee) : bool :=
  match attendance_device_id e with
  | Some k => String.eqb key k
  | None => false
  end.

(** [pd.merge(df, emp_df, on='attendance_device_id', how='left')]: the rows
    of the left frame in their order, each once for every roster row with
    its key (in roster order), or once with NaN when there is none. *)
Definition pd_merge_left (df : list (Attendance * string)) (emp_df : list Employee) : DataFrame :=
  flat_map (fun a =>
              match filter (key_matches (user_id (fst a))) emp_df with
              | [] => [merged_row (fst a) (snd a) None]
              | matches => map (fun e => merged_row (fst a) (snd a) (Some e)) matches
              end) df.

(** The mask of line 123. *)
Definition in_range (r : Row) : bool :=
  (START_DATE cfg <=? row_timestamp r) && (row_timestamp r <=? END_DATE cfg).

(** Lines 99-125 once the raw events and the roster are there. *)
Definition merge_and_filter (device_data : list Attendance) (shift : string)
    (emp_df : list Employee) : DataFrame :=
  let df := map (fun attendance => (attendance, shift)) device_data in
  let result_df := pd_merge_left df emp_df in
  filter in_range result_df.

Definition process_and_merge_biometric_with_employee_data
    (devices : list Device) (shift_index : nat) (fuel : nat) : M St (option DataFrame) :=
  device <- index_mod devices shift_index ;;
  shift <- index_mod (SHIFT cfg) shift_index ;;
  fun w =>
    match fetch_biometric_data (ip device) 4370 180 w with
    | (Raise _, w1) =>
        (Ok None, emit (Print (MsgSkippingDeviceError (device_id device) shift)) w1)
    | (Diverge, w1) => (Diverge, w1)
    | (Ok device_data, w1) =>
        match device_data with
        | [] => (Ok None, emit (Print (MsgNoData (device_id device) shift)) w1)
        | _ =>
            if existsb (String.eqb "user_id") df_columns then
              (emp_df <- fetch_employee_data fuel ;;
               ret (Some (merge_and_filter device_data shift emp_df))) w1
            else (Ok None, emit (Print (MsgNoUserId (device_id device) shift)) w1)
        end
    end.

(** *** Delivery submitter (lines 128-173) *)

Definition payload_of (employee : string) (row : Row) : Payload :=
  {| payload_employee := employee;
     payload_time := row_timestamp row;
     payload_shift := row_shift row |}.

(** The [while] of line 153, from the state [(retry_count, success)]. *)
Equations? retry_loop (max_retries : Z) (employee : string) (json_payload : Payload)
    (retry_count : Z) (success : bool) (w : world St) : bool * world St
    by wf (if success then O else S (Z.to_nat (max_retries - retry_count))) lt :=
  retry_loop max_retries employee json_payload retry_count success w
    with Z_lt_dec retry_count max_retries, success := {
    | left _, false
        with call (HttpPost json_payload) (requests_post out json_payload) w := {
        | (PostStatus status_code, w1) with status_ok status_code := {
            | true =>
                retry_loop max_retries employee json_payload retry_count true
                  (emit (Print (MsgAdded employee)) w1)
            | false =>
                retry_loop max_retries employee json_payload (retry_count + 1) false
                  (emit (Sleep 2) (emit (Print (MsgFailedStatus employee status_code)) w1)) }
        | (PostException, w1) =>
            retry_loop max_retries employee json_payload (retry_count + 1) false
              (emit (Sleep 2) (emit (Print (MsgRequestFailed employee)) w1)) }
    | _, _ => (success, w) }.
Proof. all: lia. Qed.

(** The body of the [for] of line 136, for one row. *)
Definition push_row (max_retries : Z) (row : Row) (w : world St) : world St :=
  match row_employee row with
  | None => emit (Print MsgSkippingNaN) w
  | Some employee =>
      let json_payload := payload_of employee row in
      let '(success, w1) := retry_loop max_retries employee json_payload 0 false w in
      if success then w1
      else emit (Print (MsgFailedPush employee max_retries)) w1
  end.

Fixpoint push_rows (max_retries : Z) (df : DataFrame) (w : world St) : world St :=
  match df with
  | [] => w
  | row :: rest => push_rows max_retries rest (push_row max_retries row w)
  end.

Definition push_data_to_erp (df : DataFrame) (max_retries : Z) (w : world St)
  : bool * world St :=
  (true, push_rows max_retries df w).

(** *** Scheduler (lines 200-225) *)

(** One turn of the [while True] past the guard of line 204, up to and
    including the pause; the counter moves on afterwards on both paths. *)
Definition cycle (shift_index : nat) (fuel : nat) : M St unit :=
  device <- index_mod (devices cfg) shift_index ;;
  shift <- index_mod (SHIFT cfg) shift_index ;;
  print (MsgProcessing (device_id device) shift) ;;;
  filtered_df <- process_and_merge_biometric_with_employee_data (devices cfg) shift_index fuel ;;
  match filtered_df with
  | None | Some [] =>
      device <- index_mod (devices cfg) shift_index ;;
      shift <- index_mod (SHIFT cfg) shift_index ;;
      print (MsgSkippingDevice (device_id device) shift) ;;;
      sleep 5
  | Some filtered_df =>
      let filtered_df := firstn 5 filtered_df in
      print (MsgFrame filtered_df) ;;;
      (fun w => (Ok tt, snd (push_data_to_erp filtered_df 2 w))) ;;;
      sleep 5
  end.

Equations? main_loop_from (fuel : nat) (shift_index : nat) (w : world St)
    : res unit * world St
    by wf (length (devices cfg) - shift_index)%nat lt :=
  main_loop_from fuel shift_index w with le_lt_dec (length (devices cfg)) shift_index := {
    | left _ => print MsgCompleted w
    | right _ with cycle shift_index fuel w := {
        | (Ok _, w1) => main_loop_from fuel (S shift_index) w1
        | (Raise e, w1) => (Raise e, w1)
        | (Diverge, w1) => (Diverge, w1) } }.
Proof. lia. Qed.

Definition main_loop (fuel : nat) : M St unit := main_loop_from fuel 0.

End Program.

(** ** What a trace shows *)

(** The devices the run connected to, by address, in order. *)
Definition connects (t : list event) : list string :=
  flat_map (fun e => match e with Connect ip _ _ => [ip] | _ => [] end) t.

(** The cycles the scheduler announced (line 208): device and shift. *)
Definition processing_log (t : list event) : list (string * string) :=
  flat_map (fun e => match e with
                     | Print (MsgProcessing device_id shift) => [(device_id, shift)]
                     | _ => []
                     end) t.

(** The events each component is the source of. *)
Definition by_adapter (e : event) : bool :=
  match e with
  | Connect _ _ _ | GetAttendance _ | Disconnect _ => true
  | Print (MsgFetched _ _) | Print (MsgErrorFetching _) => true
  | _ => false
  end.

Definition by_fetcher (e : event) : bool :=
  match e with
  | HttpGet _ _ | Print MsgRosterError => true
  | _ => false
  end.

Definition by_submitter (e : event) : bool :=
  match e with
  | HttpPost _ | Sleep 2 => true
  | Print MsgSkippingNaN | Print (MsgAdded _) | Print (MsgFailedStatus _ _)
  | Print (MsgRequestFailed _) | Print (MsgFailedPush _ _) => true
  | _ => false
  end.

(** One failed attempt of the retry loop, as the trace shows it. *)
Definition failed_attempt (employee : string) (p : Payload) (status_code : Z) : list event :=
  [HttpPost p; Print (MsgFailedStatus employee status_code); Sleep 2].

(** The endpoint answers every request with the same status code. *)
Definition always_status {St} (out : Outside St) (status_code : Z) : Prop :=
  forall (p : Payload) (s : St), fst (requests_post out p s) = PostStatus status_code.

(** Every roster fetch comes to an end: from every state some number of
    pages is enough. *)
Definition roster_fetch_terminates {St} (out : Outside St) : Prop :=
  forall w : world St, exists fuel : nat, fst (fetch_employee_data out fuel w) <> Diverge.

(** ** The merge, seen from the raw events *)

(** The attendance columns of a merged row. *)
Definition attendance_of (r : Row) : Attendance :=
  {| uid := row_uid r;
     user_id := row_attendance_device_id r;
     timestamp := row_timestamp r;
     status := row_status r;
     punch := row_punch r |}.

(** The window of the configuration, on a point in time. *)
Definition in_window (cfg : local_config) (t : Timestamp) : bool :=
  (START_DATE cfg <=? t) && (t <=? END_DATE cfg).

(** The number of merged rows a raw event gives: one for each roster record
    with its device identifier, one if there is none. *)
Definition copies (emp_df : list Employee) (a : Attendance) : nat :=
  Nat.max 1 (length (filter (key_matches (user_id a)) emp_df)).

(** The merged rows of one raw event. *)
Definition rows_of (emp_df : list Employee) (a : Attendance) (shift : string) : list Row :=
  match filter (key_matches (user_id a)) emp_df with
  | [] => [merged_row a shift None]
  | matches => map (fun e => merged_row a shift (Some e)) matches
  end.

(** ** The schedule *)

(** The device and the shift of cycle [i]: [devices[i % len(devices)]] and
    [SHIFT[i % len(SHIFT)]]. *)
Definition cycle_pair (cfg : local_config) (i : nat) : option (Device * string) :=
  match nth_error (devices cfg) (i mod length (devices cfg))%nat,
        nth_error (SHIFT cfg) (i mod length (SHIFT cfg))%nat with
  | Some device, Some shift => Some (device, shift)
  | _, _ => None
  end.

(** ** More of what a trace shows *)

(** The roster requests: offset and page length. *)
Definition gets (t : list event) : list (Z * Z) :=
  flat_map (fun e => match e with
                     | HttpGet limit_start limit_page_length =>
                         [(limit_start, limit_page_length)]
                     | _ => []
                     end) t.

(** The connections opened: address, port and timeout. *)
Definition connections (t : list event) : list (string * Z * Z) :=
  flat_map (fun e => match e with
                     | Connect ip port timeout => [(ip, port, timeout)]
                     | _ => []
                     end) t.

(** The employees whose check-in the backend accepted (line 158). *)
Definition added (t : list event) : list string :=
  flat_map (fun e => match e with Print (MsgAdded employee) => [employee] | _ => [] end) t.

(** The employees whose row was given up (line 171). *)
Definition given_up (t : list event) : list string :=
  flat_map (fun e => match e with
                     | Print (MsgFailedPush employee _) => [employee]
                     | _ => []
                     end) t.

(** The pauses taken, in seconds. *)
Definition sleeps (t : list event) : list Z :=
  flat_map (fun e => match e with Sleep seconds => [seconds] | _ => [] end) t.

(** The records a response adds to the roster: none for an exception, a
    missing ['data'] key or an empty page, which all end the pagination. *)
Definition records_of (r : get_response) : list Employee :=
  match r with
  | GetJson (Some so_data) => so_data
  | _ => []
  end.

(** The device identifiers the roster assigns. *)
Definition roster_keys (emp_df : list Employee) : list string :=
  flat_map (fun e => match attendance_device_id e with
                     | Some k => [k]
                     | None => []
                     end) emp_df.

(** The request a row gives rise to, if it has an employee. *)
Definition payloads_of (df : DataFrame) : list Payload :=
  flat_map (fun row => match row_employee row with
                       | Some e => [payload_of e row]
                       | None => []
                       end) df.

(** A check-in a run may post: the payload of a row with an employee, out
    of the merge of some events with a roster fetched in the run, under one
    of the configured shifts. *)
Definition checkin_of_run {St} (out : Outside St) (cfg : local_config) (fuel : nat)
    (p : Payload) : Prop :=
  exists (shift : string) (device_data : list Attendance) (emp_df : list Employee)
         (wa wb : world St) (row : Row) (e : string),
    In shift (SHIFT cfg)
    /\ fetch_employee_data out fuel wa = (Ok emp_df, wb)
    /\ In row (merge_and_filter cfg device_data shift emp_df)
    /\ row_employee row = Some e
    /\ p = payload_of e row.

(** ** A site to run the program on *)

Module Site.

(** Two terminals and two shifts; the window runs from 100 to 200. *)
Definition config : local_config :=
  {| devices := [ {| device_id := "D1"; ip := "10.0.0.1"; port := 4370 |};
                  {| device_id := "D2"; ip := "10.0.0.2"; port := 4370 |} ];
     SHIFT := ["S1"; "S2"];
     START_DATE := 100;
     END_DATE := 200 |}.

(** The same site with no shift configured. *)
Definition config_no_shift : local_config :=
  {| devices := devices config; SHIFT := []; START_DATE := 100; END_DATE := 200 |}.

Definition punch_of (n : Z) (user : string) (t : Timestamp) : Attendance :=
  {| uid := n; user_id := user; timestamp := t; status := 1; punch := 0 |}.

(** What the first terminal holds: events on both ends of the window, one
    past it, one of a user the roster does not know, one stored twice. *)
Definition punches : list Attendance :=
  [ punch_of 1 "1" 100; punch_of 2 "2" 150; punch_of 3 "9" 160; punch_of 4 "1" 250;
    punch_of 2 "2" 150; punch_of 6 "3" 170; punch_of 7 "1" 180; punch_of 8 "3" 200;
    punch_of 9 "2" 190 ].

Definition roster : list Employee :=
  [ {| employee := Some "E1"; employee_name := Some "Ann"; attendance_device_id := Some "1" |};
    {| employee := Some "E2"; employee_name := Some "Bob"; attendance_device_id := Some "2" |};
    {| employee := Some "E3"; employee_name := Some "Cy"; attendance_device_id := Some "3" |};
    {| employee := Some "E4"; employee_name := Some "Di"; attendance_device_id := None |} ].

(** The outside counts the calls made to it.  The first terminal returns
    [punches], the second nothing; the backend serves the roster in one
    page and answers every check-in with [status_code]. *)
Definition office (status_code : Z) : Outside nat :=
  {| zk_connect := fun _ _ _ s => (true, S s);
     zk_get_attendance := fun ip s =>
       (Some (if String.eqb ip "10.0.0.1" then punches else []), S s);
     zk_disconnect := fun _ s => (true, S s);
     session_get := fun limit_start _ s =>
       (GetJson (Some (if limit_start =? 0 then roster else [])), S s);
     requests_post := fun _ s => (PostStatus status_code, S s) |}.

(** A backend whose every page has a record on it. *)
Definition endless_roster : Outside nat :=
  {| zk_connect := zk_connect (office 200);
     zk_get_attendance := zk_get_attendance (office 200);
     zk_disconnect := zk_disconnect (office 200);
     session_get := fun _ _ s => (GetJson (Some roster), S s);
     requests_post := requests_post (office 200) |}.

(** A terminal that accepts the connection and then fails at every
    command, the one that ends the session included. *)
Definition broken_terminal : Outside nat :=
  {| zk_connect := fun _ _ _ s => (true, S s);
     zk_get_attendance := fun _ s => (None, S s);
     zk_disconnect := fun _ s => (false, S s);
     session_get := session_get (office 200);
     requests_post := requests_post (office 200) |}.

(** A terminal that accepts the connection, fails at the retrieval and
    ends the session properly. *)
Definition silent_terminal : Outside nat :=
  {| zk_connect := fun _ _ _ s => (true, S s);
     zk_get_attendance := fun _ s => (None, S s);
     zk_disconnect := fun _ s => (true, S s);
     session_get := session_get (office 200);
     requests_post := requests_post (office 200) |}.

(** A terminal that cannot be reached. *)
Definition unreachable_terminal : Outside nat :=
  {| zk_connect := fun _ _ _ s => (false, S s);
     zk_get_attendance := fun _ s => (None, S s);
     zk_disconnect := fun _ s => (false, S s);
     session_get := session_get (office 200);
     requests_post := requests_post (office 200) |}.

Definition start : world nat := {| outside := 0%nat; trace := [] |}.

(** The merged row of the event of user 9, whom the roster does not know. *)
Definition unknown_user_row : Row :=
  merged_row (punch_of 3 "9" 160) "S1" None.

(** The merged row of the first event, on the start of the window. *)
Definition first_row : Row :=
  merged_row (punch_of 1 "1" 100) "S1"
    (Some {| employee := Some "E1"; employee_name := Some "Ann";
             attendance_device_id := Some "1" |}).

(** The merged frame of the first terminal. *)
Definition merged : DataFrame := merge_and_filter config punches "S1" roster.

End Site.

(** ** Variants of the site *)

Module SiteVariants.

Import Site.

(** The site with no terminal configured. *)
Definition config_no_devices : local_config :=
  {| devices := []; SHIFT := SHIFT config; START_DATE := 100; END_DATE := 200 |}.

(** The site with its first terminal configured on another port. *)
Definition config_other_port : local_config :=
  {| devices := [ {| device_id := "D1"; ip := "10.0.0.1"; port := 5005 |} ];
     SHIFT := SHIFT config; START_DATE := 100; END_DATE := 200 |}.

(** The office with a backend whose roster requests all fail. *)
Definition roster_down : Outside nat :=
  {| zk_connect := zk_connect (office 200);
     zk_get_attendance := zk_get_attendance (office 200);
     zk_disconnect := zk_disconnect (office 200);
     session_get := fun _ _ s => (GetException, S s);
     requests_post := requests_post (office 200) |}.

(** The pages the backend of the office serves. *)
Definition office_page (limit_start : Z) : get_response :=
  GetJson (Some (if limit_start =? 0 then roster else [])).

End SiteVariants.

(** ** Properties *)

Section Properties.

Context {St : Type}.
Variable out : Outside St.
Variable cfg : local_config.

(** *** Traces *)

Lemma posts_app (t1 t2 : list event) : posts (t1 ++ t2) = posts t1 ++ posts t2.
Proof. unfold posts. apply flat_map_app. Qed.

Lemma call_inv {A} (e : event) (f : St -> A * St) (w w1 : world St) (a : A) :
  call e f w = (a, w1) ->
  f (outside w) = (a, outside w1) /\ trace w1 = trace w ++ [e].
Proof.
  unfold call. destruct (f (outside w)) as [a' s] eqn:Hf.
  intros H. inversion H; subst. simpl. auto.
Qed.

Lemma trace_emit (e : event) (w : world St) : trace (emit e w) = trace w ++ [e].
Proof. reflexivity. Qed.

Lemma connects_app (t1 t2 : list event) : connects (t1 ++ t2) = connects t1 ++ connects t2.
Proof. unfold connects. apply flat_map_app. Qed.

Lemma processing_log_app (t1 t2 : list event) :
  processing_log (t1 ++ t2) = processing_log t1 ++ processing_log t2.
Proof. unfold processing_log. apply flat_map_app. Qed.

Lemma forallb_app_true {A} (f : A -> bool) (l1 l2 : list A) :
  forallb f l1 = true -> forallb f l2 = true -> forallb f (l1 ++ l2) = true.
Proof. intros H1 H2. rewrite forallb_app, H1, H2. reflexivity. Qed.

(** An observation that ignores the events of a component sees nothing in
    what the component does. *)
Lemma flat_map_ignored {B} (f : event -> list B) (owner : event -> bool) (evs : list event) :
  (forall e, owner e = true -> f e = []) ->
  forallb owner evs = true -> flat_map f evs = [].
Proof.
  intros Hf. induction evs as [| e evs IH]; simpl; [reflexivity |].
  intros H. apply andb_true_iff in H. destruct H as [He Hevs].
  rewrite (Hf e He), (IH Hevs). reflexivity.
Qed.

Ltac by_cases :=
  let e := fresh "e" in
  let m := fresh "m" in
  intros e; destruct e as [| | | | | | m]; try destruct m; simpl;
  intros; reflexivity || discriminate.

Lemma posts_by_adapter evs : forallb by_adapter evs = true -> posts evs = [].
Proof. apply flat_map_ignored. by_cases. Qed.

Lemma posts_by_fetcher evs : forallb by_fetcher evs = true -> posts evs = [].
Proof. apply flat_map_ignored. by_cases. Qed.

Lemma processing_log_by_adapter evs : forallb by_adapter evs = true -> processing_log evs = [].
Proof. apply flat_map_ignored. by_cases. Qed.

Lemma processing_log_by_fetcher evs : forallb by_fetcher evs = true -> processing_log evs = [].
Proof. apply flat_map_ignored. by_cases. Qed.

Lemma processing_log_by_submitter evs :
  forallb by_submitter evs = true -> processing_log evs = [].
Proof. apply flat_map_ignored. by_cases. Qed.

Lemma connects_by_fetcher evs : forallb by_fetcher evs = true -> connects evs = [].
Proof. apply flat_map_ignored. by_cases. Qed.

Lemma connects_by_submitter evs : forallb by_submitter evs = true -> connects evs = [].
Proof. apply flat_map_ignored. by_cases. Qed.

(** *** The retry loop *)

(** Whatever the endpoint answers, the loop posts its own payload only, and
    at most as many times as retries are left. *)
Lemma retry_loop_posts (max_retries : Z) (employee : string) (p : Payload)
    (retry_count : Z) (success : bool) (w : world St) :
  exists k : nat,
    posts (trace (snd (retry_loop out max_retries employee p retry_count success w)))
    = posts (trace w) ++ repeat p k
    /\ (k <= if success then 0 else Z.to_nat (max_retries - retry_count))%nat.
Proof.
  funelim (retry_loop out max_retries employee p retry_count success w).
  all: try (exists 0%nat; simpl; rewrite app_nil_r; split;
            [reflexivity | try destruct success; lia]).
  all: match goal with
       | Hc : call _ _ _ = _, IH : exists _, _ |- _ =>
           apply call_inv in Hc; destruct Hc as [_ Ht];
           destruct IH as [k [Hk1 Hk2]];
           exists (S k); rewrite Hk1; repeat rewrite trace_emit; rewrite Ht;
           repeat rewrite posts_app; simpl; repeat rewrite app_nil_r;
           rewrite <- app_assoc; simpl; split; [reflexivity | lia]
       end.
Qed.

Lemma retry_loop_events (max_retries : Z) (employee : string) (p : Payload)
    (retry_count : Z) (success : bool) (w : world St) :
  exists evs : list event,
    trace (snd (retry_loop out max_retries employee p retry_count success w))
    = trace w ++ evs
    /\ forallb by_submitter evs = true.
Proof.
  funelim (retry_loop out max_retries employee p retry_count success w).
  all: try (exists []; simpl; rewrite app_nil_r; split; reflexivity).
  all: match goal with
       | Hc : call _ _ _ = _, IH : exists _, _ |- _ =>
           apply call_inv in Hc; destruct Hc as [_ Ht];
           destruct IH as [evs [Hk1 Hk2]];
           rewrite Hk1; repeat rewrite trace_emit; rewrite Ht;
           repeat rewrite <- app_assoc; eexists; split; [reflexivity |];
           simpl; exact Hk2
       end.
Qed.

Lemma posts_failed_attempts (employee : string) (p : Payload) (status_code : Z) (n : nat) :
  posts (concat (repeat (failed_attempt employee p status_code) n)) = repeat p n.
Proof.
  induction n as [| n IH]; simpl; [reflexivity | f_equal; exact IH].
Qed.

Section Exhaustion.

Variable status_code : Z.
Hypothesis endpoint_fails : always_status out status_code.
Hypothesis status_bad : status_ok status_code = false.

(** Against an endpoint that always answers with a failing status, the loop
    uses up every retry that is left and ends without success. *)
Lemma retry_loop_exhausts (max_retries : Z) (employee : string)
    (p : Payload) (retry_count : Z) (success : bool) (w : world St) :
  success = false ->
  fst (retry_loop out max_retries employee p retry_count success w) = false /\
  trace (snd (retry_loop out max_retries employee p retry_count success w))
  = trace w ++ concat (repeat (failed_attempt employee p status_code)
                              (Z.to_nat (max_retries - retry_count))).
Proof.
  funelim (retry_loop out max_retries employee p retry_count success w); intros Hs;
    try discriminate.
  all: try match goal with
       | Hc : call _ _ _ = _ |- _ => apply call_inv in Hc; destruct Hc as [Hf Ht];
           pose proof (endpoint_fails json_payload (outside w)) as Hp; rewrite Hf in Hp;
           simpl in Hp; try discriminate
       end.
  - subst success. simpl.
    replace (Z.to_nat (max_retries - retry_count)) with 0%nat by lia.
    simpl. rewrite app_nil_r. auto.
  - injection Hp as Hp. congruence.
  - injection Hp as Hp. rewrite Hp in *.
    match goal with IH : _ -> _ /\ _ |- _ => destruct (IH eq_refl) as [IH1 IH2] end.
    split; [assumption |].
    rewrite IH2. repeat rewrite trace_emit. rewrite Ht.
    replace (Z.to_nat (max_retries - retry_count))
      with (S (Z.to_nat (max_retries - (retry_count + 1)))) by lia.
    simpl. repeat rewrite <- app_assoc. reflexivity.
Qed.

End Exhaustion.

(** *** The delivery submitter *)

Lemma push_rows_app (max_retries : Z) (pre rest : DataFrame) (w : world St) :
  push_rows out max_retries (pre ++ rest) w
  = push_rows out max_retries rest (push_rows out max_retries pre w).
Proof.
  revert w. induction pre as [| row pre IH]; intros w; simpl; [reflexivity | apply IH].
Qed.

(** A row is posted with its own payload only, and only if it has an
    employee. *)
Lemma push_row_posts (max_retries : Z) (row : Row) (w : world St) :
  exists k : nat,
    posts (trace (push_row out max_retries row w))
    = posts (trace w)
      ++ match row_employee row with
         | Some e => repeat (payload_of e row) k
         | None => []
         end.
Proof.
  unfold push_row. destruct (row_employee row) as [e |].
  - destruct (retry_loop_posts max_retries e (payload_of e row) 0 false w) as [k [Hk _]].
    exists k.
    destruct (retry_loop out max_retries e (payload_of e row) 0 false w) as [success w1].
    simpl in Hk. destruct success; simpl; [assumption |].
    rewrite posts_app, Hk. simpl. apply app_nil_r.
  - exists 0%nat. rewrite trace_emit, posts_app. reflexivity.
Qed.

Lemma push_rows_events (max_retries : Z) (df : DataFrame) (w : world St) :
  exists evs : list event,
    trace (push_rows out max_retries df w) = trace w ++ evs
    /\ forallb by_submitter evs = true.
Proof.
  revert w. induction df as [| row df IH]; intros w; simpl.
  - exists []. rewrite app_nil_r. split; reflexivity.
  - destruct (IH (push_row out max_retries row w)) as [evs [Ht Hs]].
    rewrite Ht. unfold push_row. destruct (row_employee row) as [e |].
    + destruct (retry_loop_events max_retries e (payload_of e row) 0 false w)
        as [evs1 [Ht1 Hs1]].
      destruct (retry_loop out max_retries e (payload_of e row) 0 false w)
        as [success w1].
      simpl in Ht1. destruct success; simpl; rewrite Ht1; repeat rewrite <- app_assoc;
        eexists; (split; [reflexivity |]); repeat apply forallb_app_true;
        trivial.
    + rewrite trace_emit, <- app_assoc. eexists; split; [reflexivity |].
      simpl. exact Hs.
Qed.

(** Every payload a batch posts belongs to one of its rows. *)
Lemma push_rows_posts (max_retries : Z) (df : DataFrame) (w : world St) :
  exists ps : list Payload,
    posts (trace (push_rows out max_retries df w)) = posts (trace w) ++ ps /\
    forall p, In p ps ->
      exists row e, In row df /\ row_employee row = Some e /\ p = payload_of e row.
Proof.
  revert w. induction df as [| row df IH]; intros w; simpl.
  - exists []. rewrite app_nil_r. split; [reflexivity | intros p []].
  - destruct (IH (push_row out max_retries row w)) as [ps [Hps Hin]].
    destruct (push_row_posts max_retries row w) as [k Hk].
    rewrite Hps, Hk, <- app_assoc.
    eexists; split; [reflexivity |].
    intros p Hp. apply in_app_or in Hp. destruct Hp as [Hp | Hp].
    + destruct (row_employee row) as [e |] eqn:He; [| destruct Hp].
      apply repeat_spec in Hp. exists row, e. auto.
    + destruct (Hin p Hp) as [r [e [Hr [He Hpe]]]]. exists r, e. auto.
Qed.

(** C2.  Retry exhaustion.  When the check-in endpoint answers HTTP 500 to
    every request, a row with an employee, reached after the rows [pre] of
    the batch, gets exactly [max_retries] submission attempts, each followed
    by the failure message and the 2 second pause; the row is then given up
    with the final message and nothing more, and the rows after it are
    processed from there. *)
Theorem push_data_to_erp_retry_exhaustion (max_retries : Z) (pre : DataFrame) (row : Row)
    (rest : DataFrame) (e : string) (w : world St) :
  always_status out 500 -> 0 <= max_retries -> row_employee row = Some e ->
  let w1 := push_rows out max_retries pre w in
  let w2 := push_row out max_retries row w1 in
  trace w2 = trace w1
             ++ concat (repeat (failed_attempt e (payload_of e row) 500) (Z.to_nat max_retries))
             ++ [Print (MsgFailedPush e max_retries)]
  /\ posts (trace w2) = posts (trace w1) ++ repeat (payload_of e row) (Z.to_nat max_retries)
  /\ Z.of_nat (length (posts (trace w2))) = Z.of_nat (length (posts (trace w1))) + max_retries
  /\ push_data_to_erp out (pre ++ row :: rest) max_retries w
     = push_data_to_erp out rest max_retries w2.
Proof.
  intros H500 Hpos He w1 w2.
  assert (Ht : trace w2 = trace w1
             ++ concat (repeat (failed_attempt e (payload_of e row) 500) (Z.to_nat max_retries))
             ++ [Print (MsgFailedPush e max_retries)]).
  { unfold w2, push_row. rewrite He.
    destruct (@retry_loop_exhausts 500 H500 eq_refl max_retries e (payload_of e row) 0 false w1 eq_refl)
      as [Hs Htr].
    destruct (retry_loop out max_retries e (payload_of e row) 0 false w1) as [success w'].
    simpl in Hs, Htr. subst success. rewrite trace_emit, Htr.
    rewrite Z.sub_0_r, <- app_assoc. reflexivity. }
  assert (Hp : posts (trace w2)
               = posts (trace w1) ++ repeat (payload_of e row) (Z.to_nat max_retries)).
  { rewrite Ht. repeat rewrite posts_app. simpl. rewrite app_nil_r. f_equal.
    apply posts_failed_attempts. }
  repeat split; try assumption.
  - rewrite Hp, length_app, repeat_length. lia.
  - unfold push_data_to_erp. f_equal. rewrite push_rows_app. reflexivity.
Qed.

(** C4.  A row whose employee is null, reached after the rows [pre] of the
    batch, is skipped: the only thing done for it is the message, no request
    is posted, and the rows after it are processed from there. *)
Theorem push_data_to_erp_skips_null_employee (max_retries : Z) (pre : DataFrame)
    (row : Row) (rest : DataFrame) (w : world St) :
  row_employee row = None ->
  let w1 := push_rows out max_retries pre w in
  let w2 := push_row out max_retries row w1 in
  w2 = emit (Print MsgSkippingNaN) w1
  /\ outside w2 = outside w1
  /\ posts (trace w2) = posts (trace w1)
  /\ push_data_to_erp out (pre ++ row :: rest) max_retries w
     = push_data_to_erp out rest max_retries w2.
Proof.
  intros He w1 w2.
  assert (Hw : w2 = emit (Print MsgSkippingNaN) w1).
  { unfold w2, push_row. rewrite He. reflexivity. }
  repeat split.
  - assumption.
  - rewrite Hw. reflexivity.
  - rewrite Hw, trace_emit, posts_app. simpl. apply app_nil_r.
  - unfold push_data_to_erp. f_equal. rewrite push_rows_app. reflexivity.
Qed.

(** C10.  The delivery submitter returns [True] for every batch, every
    retry bound and every behaviour of the endpoint: the value says nothing
    about what was delivered. *)
Theorem push_data_to_erp_returns_True (df : DataFrame) (max_retries : Z) (w : world St) :
  fst (push_data_to_erp out df max_retries w) = true.
Proof. reflexivity. Qed.

(** *** The device client adapter *)

(** C8.  The adapter on a device at [ip].  When the connection raises, the
    adapter returns the empty collection and never calls [disconnect].  When
    the connection is there and the retrieval raises, the adapter calls
    [disconnect] and, if that returns, gives the empty collection.  Whenever
    the connection is there, [disconnect] is called, whatever the retrieval
    did. *)
Theorem fetch_biometric_data_swallows_errors (ip : string) (port timeout : Z)
    (w : world St) :
  (forall s1,
      zk_connect out ip port timeout (outside w) = (false, s1) ->
      fetch_biometric_data out ip port timeout w
      = (Ok [], {| outside := s1;
                   trace := trace w ++ [Connect ip port timeout;
                                        Print (MsgErrorFetching ip)] |}))
  /\ (forall s1 s2 s3,
      zk_connect out ip port timeout (outside w) = (true, s1) ->
      zk_get_attendance out ip s1 = (None, s2) ->
      zk_disconnect out ip s2 = (true, s3) ->
      fetch_biometric_data out ip port timeout w
      = (Ok [], {| outside := s3;
                   trace := trace w ++ [Connect ip port timeout; GetAttendance ip;
                                        Print (MsgErrorFetching ip); Disconnect ip] |}))
  /\ (forall s1,
      zk_connect out ip port timeout (outside w) = (true, s1) ->
      exists m : message,
        trace (snd (fetch_biometric_data out ip port timeout w))
        = trace w ++ [Connect ip port timeout; GetAttendance ip; Print m; Disconnect ip]).
Proof.
  unfold fetch_biometric_data, call, emit. repeat split.
  - intros s1 H1. rewrite H1. simpl. rewrite <- app_assoc. reflexivity.
  - intros s1 s2 s3 H1 H2 H3. rewrite H1. simpl. rewrite H2. simpl. rewrite H3.
    simpl. repeat rewrite <- app_assoc. reflexivity.
  - intros s1 H1. rewrite H1. simpl.
    destruct (zk_get_attendance out ip s1) as [[l |] s2]; simpl;
      destruct (zk_disconnect out ip s2) as [[|] s3]; simpl;
      eexists; repeat rewrite <- app_assoc; reflexivity.
Qed.

Lemma fetch_biometric_data_events (ip : string) (port timeout : Z) (w : world St) :
  exists evs : list event,
    trace (snd (fetch_biometric_data out ip port timeout w)) = trace w ++ evs
    /\ forallb by_adapter evs = true
    /\ connects evs = [ip].
Proof.
  unfold fetch_biometric_data, call, emit.
  destruct (zk_connect out ip port timeout (outside w)) as [[|] s1]; simpl.
  - destruct (zk_get_attendance out ip s1) as [[l |] s2]; simpl;
      destruct (zk_disconnect out ip s2) as [[|] s3]; simpl;
      repeat rewrite <- app_assoc; eexists; (split; [reflexivity |]);
      split; reflexivity.
  - rewrite <- app_assoc. eexists; split; [reflexivity |]. split; reflexivity.
Qed.

(** *** The employee directory fetcher *)

Lemma fetch_pages_events (fuel : nat) (limit_start : Z) (all_data : list Employee)
    (w : world St) :
  exists evs : list event,
    trace (snd (fetch_pages out fuel limit_start all_data w)) = trace w ++ evs
    /\ forallb by_fetcher evs = true.
Proof.
  revert limit_start all_data w.
  induction fuel as [| fuel IH]; intros limit_start all_data w; simpl.
  - exists []. rewrite app_nil_r. split; reflexivity.
  - unfold call.
    destruct (session_get out limit_start limit_page_length (outside w))
      as [[| [[| e so_data] |]] s1]; simpl.
    + rewrite <- app_assoc. eexists; split; reflexivity.
    + eexists; split; reflexivity.
    + match goal with |- context [fetch_pages out fuel ?ls ?acc ?w1] =>
        destruct (IH ls acc w1) as [evs [Ht Hs]] end.
      rewrite Ht. simpl. rewrite <- app_assoc. eexists; split; [reflexivity |].
      simpl. exact Hs.
    + eexists; split; reflexivity.
Qed.

(** More pages than needed change nothing. *)
Lemma fetch_pages_more_fuel (fuel : nat) (limit_start : Z) (all_data : list Employee)
    (w : world St) :
  fst (fetch_pages out fuel limit_start all_data w) <> Diverge ->
  forall fuel', (fuel <= fuel')%nat ->
    fetch_pages out fuel' limit_start all_data w
    = fetch_pages out fuel limit_start all_data w.
Proof.
  revert limit_start all_data w.
  induction fuel as [| fuel IH]; intros limit_start all_data w; simpl.
  - intros H. exfalso. apply H. reflexivity.
  - intros H fuel' Hle. destruct fuel' as [| fuel']; [lia |]. simpl.
    destruct (call (HttpGet limit_start limit_page_length)
                (session_get out limit_start limit_page_length) w)
      as [[| [[| e so_data] |]] w1]; try reflexivity.
    apply IH; [exact H | lia].
Qed.

Lemma fetch_employee_data_more_fuel (fuel : nat) (w : world St) :
  fst (fetch_employee_data out fuel w) <> Diverge ->
  forall fuel', (fuel <= fuel')%nat ->
    fetch_employee_data out fuel' w = fetch_employee_data out fuel w.
Proof.
  unfold fetch_employee_data, bind. intros H fuel' Hle.
  rewrite (@fetch_pages_more_fuel fuel 0 [] w); [reflexivity | | exact Hle].
  destruct (fetch_pages out fuel 0 [] w) as [[l | e |] w1]; simpl in *; congruence.
Qed.

(** The roster fetch never raises. *)
Lemma fetch_pages_no_raise (fuel : nat) (limit_start : Z) (all_data : list Employee)
    (w : world St) (e : exn) :
  fst (fetch_pages out fuel limit_start all_data w) <> Raise e.
Proof.
  revert limit_start all_data w.
  induction fuel as [| fuel IH]; intros limit_start all_data w; simpl; [discriminate |].
  destruct (call (HttpGet limit_start limit_page_length)
              (session_get out limit_start limit_page_length) w)
    as [[| [[| r so_data] |]] w1]; simpl; try discriminate.
  apply IH.
Qed.

Lemma fetch_employee_data_events (fuel : nat) (w : world St) :
  exists evs : list event,
    trace (snd (fetch_employee_data out fuel w)) = trace w ++ evs
    /\ forallb by_fetcher evs = true.
Proof.
  unfold fetch_employee_data, bind.
  destruct (fetch_pages_events fuel 0 [] w) as [evs H].
  exists evs. destruct (fetch_pages out fuel 0 [] w) as [[l | e |] w1]; exact H.
Qed.

Lemma fetch_employee_data_result (fuel : nat) (w : world St) :
  (exists emp_df w1, fetch_employee_data out fuel w = (Ok emp_df, w1))
  \/ (exists w1, fetch_employee_data out fuel w = (Diverge, w1)).
Proof.
  unfold fetch_employee_data, bind.
  pose proof (fun e => @fetch_pages_no_raise fuel 0 [] w e) as Hn.
  destruct (fetch_pages out fuel 0 [] w) as [[l | e |] w1]; simpl in *.
  - left. eexists. eexists. reflexivity.
  - exfalso. apply (Hn e). reflexivity.
  - right. eexists. reflexivity.
Qed.

(** *** The merge and filter engine *)

Lemma index_mod_some {A} (l : list A) (i : nat) (x : A) (w : world St) :
  nth_error l (i mod length l)%nat = Some x -> index_mod l i w = (Ok x, w).
Proof.
  unfold index_mod. destruct l as [| y l].
  - rewrite nth_error_nil. discriminate.
  - intros H. rewrite H. reflexivity.
Qed.

Lemma index_mod_inv {A} (l : list A) (i : nat) (x : A) (w w1 : world St) :
  index_mod l i w = (Ok x, w1) ->
  w1 = w /\ nth_error l (i mod length l)%nat = Some x.
Proof.
  unfold index_mod. destruct l as [| y l]; [discriminate |].
  destruct (nth_error (y :: l) (i mod length (y :: l))%nat) as [z |];
    unfold ret, raise; intros H; inversion H; auto.
Qed.

(** The engine once the device and the shift of the cycle are known. *)
Lemma process_unfold (devs : list Device) (shift_index fuel : nat) (device : Device)
    (shift : string) (w : world St) :
  nth_error devs (shift_index mod length devs)%nat = Some device ->
  nth_error (SHIFT cfg) (shift_index mod length (SHIFT cfg))%nat = Some shift ->
  process_and_merge_biometric_with_employee_data out cfg devs shift_index fuel w
  = match fetch_biometric_data out (ip device) 4370 180 w with
    | (Raise _, w1) =>
        (Ok None, emit (Print (MsgSkippingDeviceError (device_id device) shift)) w1)
    | (Diverge, w1) => (Diverge, w1)
    | (Ok [], w1) => (Ok None, emit (Print (MsgNoData (device_id device) shift)) w1)
    | (Ok device_data, w1) =>
        match fetch_employee_data out fuel w1 with
        | (Ok emp_df, w2) => (Ok (Some (merge_and_filter cfg device_data shift emp_df)), w2)
        | (Raise e, w2) => (Raise e, w2)
        | (Diverge, w2) => (Diverge, w2)
        end
    end.
Proof.
  intros Hd Hs. unfold process_and_merge_biometric_with_employee_data.
  unfold bind at 1. rewrite (index_mod_some _ _ w Hd).
  unfold bind at 1. rewrite (index_mod_some _ _ w Hs).
  destruct (fetch_biometric_data out (ip device) 4370 180 w) as [[[| a l] | e |] w1];
    reflexivity.
Qed.

(** Without a shift for the cycle the engine raises before it does
    anything. *)
Lemma process_no_shift (devs : list Device) (shift_index fuel : nat) (device : Device)
    (w : world St) :
  nth_error devs (shift_index mod length devs)%nat = Some device ->
  nth_error (SHIFT cfg) (shift_index mod length (SHIFT cfg))%nat = None ->
  process_and_merge_biometric_with_employee_data out cfg devs shift_index fuel w
  = (Raise (match SHIFT cfg with [] => ZeroDivisionError | _ => IndexError end), w).
Proof.
  intros Hd Hs. unfold process_and_merge_biometric_with_employee_data.
  unfold bind at 1. rewrite (index_mod_some _ _ w Hd).
  unfold bind at 1. unfold index_mod. rewrite Hs.
  destruct (SHIFT cfg); reflexivity.
Qed.

(** A result of the engine is the merge of what the device returned with the
    roster fetched afterwards, cut to the window. *)
Lemma process_result (devs : list Device) (shift_index fuel : nat) (w w2 : world St)
    (df : DataFrame) :
  process_and_merge_biometric_with_employee_data out cfg devs shift_index fuel w
  = (Ok (Some df), w2) ->
  exists device shift device_data emp_df w1,
    nth_error devs (shift_index mod length devs)%nat = Some device
    /\ nth_error (SHIFT cfg) (shift_index mod length (SHIFT cfg))%nat = Some shift
    /\ fetch_biometric_data out (ip device) 4370 180 w = (Ok device_data, w1)
    /\ device_data <> []
    /\ fetch_employee_data out fuel w1 = (Ok emp_df, w2)
    /\ df = merge_and_filter cfg device_data shift emp_df.
Proof.
  intros H.
  assert (Hd : exists device, nth_error devs (shift_index mod length devs)%nat = Some device).
  { unfold process_and_merge_biometric_with_employee_data in H. unfold bind at 1 in H.
    destruct (index_mod devs shift_index w) as [[d | e |] w'] eqn:Hi; try discriminate.
    apply index_mod_inv in Hi. exists d. apply Hi. }
  destruct Hd as [device Hd].
  assert (Hs : exists shift,
             nth_error (SHIFT cfg) (shift_index mod length (SHIFT cfg))%nat = Some shift).
  { unfold process_and_merge_biometric_with_employee_data in H. unfold bind at 1 in H.
    rewrite (index_mod_some _ _ w Hd) in H. unfold bind at 1 in H.
    destruct (index_mod (SHIFT cfg) shift_index w) as [[sh | e |] w'] eqn:Hi;
      try discriminate.
    apply index_mod_inv in Hi. exists sh. apply Hi. }
  destruct Hs as [shift Hs].
  rewrite (process_unfold _ _ fuel w Hd Hs) in H.
  destruct (fetch_biometric_data out (ip device) 4370 180 w) as [[[| a l] | e |] w1] eqn:Hf;
    try discriminate.
  destruct (fetch_employee_data out fuel w1) as [[emp_df | e |] w2'] eqn:He;
    try discriminate.
  inversion H; subst.
  exists device, shift, (a :: l), emp_df, w1. repeat split; try assumption. discriminate.
Qed.

Lemma in_range_window (r : Row) : in_range cfg r = in_window cfg (row_timestamp r).
Proof. reflexivity. Qed.

Lemma in_window_spec (t : Timestamp) :
  in_window cfg t = true <-> START_DATE cfg <= t <= END_DATE cfg.
Proof. unfold in_window. rewrite andb_true_iff, !Z.leb_le. tauto. Qed.

(** C1, as the code has it.  Every row of a result of the engine has its
    timestamp in the window, both ends included.  (The employee of a row may
    be null: the left join keeps the events no roster record matches.) *)
Theorem process_result_in_window (devs : list Device) (shift_index fuel : nat)
    (w w2 : world St) (df : DataFrame) :
  process_and_merge_biometric_with_employee_data out cfg devs shift_index fuel w
  = (Ok (Some df), w2) ->
  forall r : Row, In r df -> START_DATE cfg <= row_timestamp r <= END_DATE cfg.
Proof.
  intros H r Hr.
  destruct (process_result _ _ _ _ H) as (device & shift & device_data & emp_df & w1 & Hres).
  destruct Hres as (_ & _ & _ & _ & _ & Hdf). subst df.
  unfold merge_and_filter in Hr. apply filter_In in Hr. destruct Hr as [_ Hr].
  rewrite in_range_window in Hr. apply in_window_spec. exact Hr.
Qed.

(** C3.  Of the rows of the merged frame, the filter drops exactly those
    whose timestamp is before [START_DATE] or after [END_DATE]; in a window
    that is not empty, a row on either end is kept. *)
Theorem date_filter_excludes_iff_outside (device_data : list Attendance) (shift : string)
    (emp_df : list Employee) (r : Row) :
  In r (pd_merge_left (map (fun attendance => (attendance, shift)) device_data) emp_df) ->
  (~ In r (merge_and_filter cfg device_data shift emp_df)
   <-> (row_timestamp r < START_DATE cfg \/ END_DATE cfg < row_timestamp r))
  /\ (START_DATE cfg <= END_DATE cfg ->
      row_timestamp r = START_DATE cfg \/ row_timestamp r = END_DATE cfg ->
      In r (merge_and_filter cfg device_data shift emp_df)).
Proof.
  intros Hr. unfold merge_and_filter.
  assert (Hin : In r (filter (in_range cfg)
                        (pd_merge_left (map (fun attendance => (attendance, shift)) device_data)
                                       emp_df))
                <-> START_DATE cfg <= row_timestamp r <= END_DATE cfg).
  { rewrite filter_In, in_range_window, in_window_spec. tauto. }
  split.
  - rewrite Hin. lia.
  - intros Hw Hb. apply Hin. lia.
Qed.

(** C9.  The result of the engine is a function of the raw events the device
    returned, of the shift of the cycle and of the roster alone: two runs, at
    any two moments and from any two states of the outside, in which the
    device returns the same events and the backend the same roster, give the
    same result. *)
Theorem process_same_inputs_same_result (devs : list Device) (shift_index : nat)
    (device : Device) (fuel fuel' : nat) (w w' w1 w1' w2 w2' : world St)
    (device_data : list Attendance) (emp_df : list Employee) :
  nth_error devs (shift_index mod length devs)%nat = Some device ->
  fetch_biometric_data out (ip device) 4370 180 w = (Ok device_data, w1) ->
  fetch_biometric_data out (ip device) 4370 180 w' = (Ok device_data, w1') ->
  fetch_employee_data out fuel w1 = (Ok emp_df, w2) ->
  fetch_employee_data out fuel' w1' = (Ok emp_df, w2') ->
  fst (process_and_merge_biometric_with_employee_data out cfg devs shift_index fuel w)
  = fst (process_and_merge_biometric_with_employee_data out cfg devs shift_index fuel' w').
Proof.
  intros Hd Hf Hf' He He'.
  destruct (nth_error (SHIFT cfg) (shift_index mod length (SHIFT cfg))%nat)
    as [shift |] eqn:Hsh.
  - rewrite (process_unfold _ _ fuel w Hd Hsh), (process_unfold _ _ fuel' w' Hd Hsh).
    rewrite Hf, Hf'. destruct device_data as [| a l]; [reflexivity |].
    rewrite He, He'. reflexivity.
  - rewrite (process_no_shift _ _ fuel w Hd Hsh), (process_no_shift _ _ fuel' w' Hd Hsh).
    reflexivity.
Qed.

Lemma pd_merge_left_cons (a : Attendance) (shift : string) (df : list (Attendance * string))
    (emp_df : list Employee) :
  pd_merge_left ((a, shift) :: df) emp_df = rows_of emp_df a shift ++ pd_merge_left df emp_df.
Proof. reflexivity. Qed.

Lemma rows_of_attendance (emp_df : list Employee) (a : Attendance) (shift : string) :
  Forall (fun r => attendance_of r = a) (rows_of emp_df a shift)
  /\ length (rows_of emp_df a shift) = copies emp_df a.
Proof.
  unfold rows_of, copies.
  destruct (filter (key_matches (user_id a)) emp_df) as [| e matches].
  - split; [| reflexivity]. repeat constructor. destruct a; reflexivity.
  - split.
    + apply Forall_forall. intros r Hr. apply in_map_iff in Hr.
      destruct Hr as [e0 [Hr _]]. subst r. destruct a; reflexivity.
    + rewrite length_map. simpl. lia.
Qed.

Lemma filter_rows_of_one_event (a : Attendance) (rows : list Row) :
  Forall (fun r => attendance_of r = a) rows ->
  map attendance_of (filter (in_range cfg) rows)
  = if in_window cfg (timestamp a) then repeat a (length rows) else [].
Proof.
  induction rows as [| r rows IHr]; intros Hall.
  - destruct (in_window cfg (timestamp a)); reflexivity.
  - inversion Hall as [| ? ? Hr Hrest]; subst. cbn [filter].
    rewrite in_range_window.
    replace (row_timestamp r) with (timestamp (attendance_of r)) by reflexivity.
    specialize (IHr Hrest).
    destruct (in_window cfg (timestamp (attendance_of r))); cbn [map length repeat].
    + rewrite IHr. reflexivity.
    + exact IHr.
Qed.

(** The join keeps the raw events in their order: the merged frame lists
    each event as many times as the roster has records for it, once when it
    has none, and the filter keeps the events of the window. *)
Lemma merge_and_filter_order (device_data : list Attendance) (shift : string)
    (emp_df : list Employee) :
  map attendance_of (merge_and_filter cfg device_data shift emp_df)
  = flat_map (fun a => repeat a (copies emp_df a))
             (filter (fun a => in_window cfg (timestamp a)) device_data).
Proof.
  unfold merge_and_filter.
  induction device_data as [| a l IH]; [reflexivity |].
  cbn [map]. rewrite pd_merge_left_cons, filter_app, map_app, IH.
  destruct (rows_of_attendance emp_df a shift) as [Hall Hlen].
  rewrite (filter_rows_of_one_event Hall), Hlen. cbn [filter].
  destruct (in_window cfg (timestamp a)); reflexivity.
Qed.

(** *** The scheduler *)

(** A cycle once its device and its shift are known. *)
Lemma cycle_unfold (shift_index fuel : nat) (device : Device) (shift : string)
    (w : world St) :
  nth_error (devices cfg) (shift_index mod length (devices cfg))%nat = Some device ->
  nth_error (SHIFT cfg) (shift_index mod length (SHIFT cfg))%nat = Some shift ->
  cycle out cfg shift_index fuel w
  = match process_and_merge_biometric_with_employee_data out cfg (devices cfg) shift_index
            fuel (emit (Print (MsgProcessing (device_id device) shift)) w) with
    | (Ok None, w1) | (Ok (Some []), w1) =>
        (Ok tt, emit (Sleep 5) (emit (Print (MsgSkippingDevice (device_id device) shift)) w1))
    | (Ok (Some filtered_df), w1) =>
        (Ok tt,
         emit (Sleep 5)
           (snd (push_data_to_erp out (firstn 5 filtered_df) 2
                   (emit (Print (MsgFrame (firstn 5 filtered_df))) w1))))
    | (Raise e, w1) => (Raise e, w1)
    | (Diverge, w1) => (Diverge, w1)
    end.
Proof.
  intros Hd Hs. unfold cycle.
  unfold bind at 1. rewrite (index_mod_some _ _ w Hd).
  unfold bind at 1. rewrite (index_mod_some _ _ w Hs).
  unfold bind at 1. unfold print at 1.
  unfold bind at 1.
  destruct (process_and_merge_biometric_with_employee_data out cfg (devices cfg)
              shift_index fuel (emit (Print (MsgProcessing (device_id device) shift)) w))
    as [[[[| r df] |] | e |] w1]; try reflexivity.
  - unfold bind at 1. rewrite (index_mod_some _ _ w1 Hd).
    unfold bind at 1. rewrite (index_mod_some _ _ w1 Hs). reflexivity.
  - unfold bind at 1. rewrite (index_mod_some _ _ w1 Hd).
    unfold bind at 1. rewrite (index_mod_some _ _ w1 Hs). reflexivity.
Qed.

(** The loop, one turn at a time. *)
Lemma main_loop_from_step (fuel shift_index : nat) (w : world St) :
  (shift_index < length (devices cfg))%nat ->
  main_loop_from out cfg fuel shift_index w
  = match cycle out cfg shift_index fuel w with
    | (Ok _, w1) => main_loop_from out cfg fuel (S shift_index) w1
    | (Raise e, w1) => (Raise e, w1)
    | (Diverge, w1) => (Diverge, w1)
    end.
Proof.
  intros Hlt. simp main_loop_from.
  destruct (le_lt_dec (length (devices cfg)) shift_index) as [Hle | Hlt']; [lia |].
  simpl. destruct (cycle out cfg shift_index fuel w) as [[[] | e |] w1]; reflexivity.
Qed.

Lemma main_loop_from_exit (fuel shift_index : nat) (w : world St) :
  (length (devices cfg) <= shift_index)%nat ->
  main_loop_from out cfg fuel shift_index w = (Ok tt, emit (Print MsgCompleted) w).
Proof.
  intros Hle. simp main_loop_from.
  destruct (le_lt_dec (length (devices cfg)) shift_index) as [Hle' | Hlt]; [| lia].
  reflexivity.
Qed.

(** C5.  A cycle whose engine gives a non-empty result [df] hands the first
    five rows of [df], and nothing else, to the delivery submitter: every
    request posted in the cycle carries a row among these five.  [df] itself
    lists the raw events of the window in the order the device returned
    them, none dropped for being a repetition of another. *)
Theorem cycle_submits_first_five (shift_index fuel : nat) (device : Device)
    (shift : string) (w w1 : world St) (df : DataFrame) :
  nth_error (devices cfg) (shift_index mod length (devices cfg))%nat = Some device ->
  nth_error (SHIFT cfg) (shift_index mod length (SHIFT cfg))%nat = Some shift ->
  process_and_merge_biometric_with_employee_data out cfg (devices cfg) shift_index fuel
    (emit (Print (MsgProcessing (device_id device) shift)) w) = (Ok (Some df), w1) ->
  df <> [] ->
  let batch := firstn 5 df in
  cycle out cfg shift_index fuel w
  = (Ok tt, emit (Sleep 5)
              (snd (push_data_to_erp out batch 2 (emit (Print (MsgFrame batch)) w1))))
  /\ (exists ps : list Payload,
        posts (trace (snd (cycle out cfg shift_index fuel w))) = posts (trace w1) ++ ps
        /\ forall p, In p ps ->
             exists row e, In row batch /\ row_employee row = Some e /\ p = payload_of e row)
  /\ (exists device_data emp_df w0,
        fetch_biometric_data out (ip device) 4370 180
          (emit (Print (MsgProcessing (device_id device) shift)) w) = (Ok device_data, w0)
        /\ df = merge_and_filter cfg device_data shift emp_df
        /\ map attendance_of df
           = flat_map (fun a => repeat a (copies emp_df a))
                      (filter (fun a => in_window cfg (timestamp a)) device_data)).
Proof.
  intros Hd Hs Hp Hne batch.
  assert (Hc : cycle out cfg shift_index fuel w
               = (Ok tt, emit (Sleep 5)
                    (snd (push_data_to_erp out batch 2 (emit (Print (MsgFrame batch)) w1))))).
  { rewrite (cycle_unfold _ fuel w Hd Hs), Hp.
    destruct df as [| r df']; [congruence | reflexivity]. }
  split; [exact Hc |]. split.
  - rewrite Hc. unfold push_data_to_erp. cbn [snd].
    destruct (push_rows_posts 2 batch (emit (Print (MsgFrame batch)) w1)) as [ps [Hps Hin]].
    exists ps. split; [| exact Hin].
    rewrite trace_emit, posts_app, Hps, trace_emit, posts_app. simpl.
    rewrite !app_nil_r. reflexivity.
  - destruct (process_result _ _ _ _ Hp)
      as (device' & shift' & device_data & emp_df & w0 & Hd' & Hs' & Hf & _ & _ & Hdf).
    assert (device' = device) by congruence. assert (shift' = shift) by congruence.
    subst device' shift'.
    exists device_data, emp_df, w0. repeat split; try assumption.
    rewrite Hdf. apply merge_and_filter_order.
Qed.

(** C6.  A cycle in which the device is reached and returns no attendance
    event: the engine gives no result, the cycle posts nothing, and the loop
    goes on with the next value of the counter. *)
Theorem zero_events_cycle (shift_index fuel : nat) (device : Device) (shift : string)
    (w : world St) (s1 s2 : St) :
  (shift_index < length (devices cfg))%nat ->
  nth_error (devices cfg) (shift_index mod length (devices cfg))%nat = Some device ->
  nth_error (SHIFT cfg) (shift_index mod length (SHIFT cfg))%nat = Some shift ->
  zk_connect out (ip device) 4370 180 (outside w) = (true, s1) ->
  zk_get_attendance out (ip device) s1 = (Some [], s2) ->
  (forall w0, outside w0 = outside w ->
     fst (process_and_merge_biometric_with_employee_data out cfg (devices cfg)
            shift_index fuel w0) = Ok None)
  /\ exists w',
      cycle out cfg shift_index fuel w = (Ok tt, w')
      /\ posts (trace w') = posts (trace w)
      /\ main_loop_from out cfg fuel shift_index w
         = main_loop_from out cfg fuel (S shift_index) w'.
Proof.
  intros Hlt Hd Hs Hconn Hget.
  assert (Hfetch : forall w0, outside w0 = outside w ->
            exists s3 r,
              fetch_biometric_data out (ip device) 4370 180 w0
              = (r, {| outside := s3;
                       trace := trace w0 ++ [Connect (ip device) 4370 180;
                                             GetAttendance (ip device);
                                             Print (MsgFetched 0 (ip device));
                                             Disconnect (ip device)] |})
              /\ (r = Ok [] \/ r = Raise DeviceException)).
  { intros w0 Hw0. unfold fetch_biometric_data, call, emit. rewrite Hw0, Hconn. simpl.
    rewrite Hget. simpl.
    destruct (zk_disconnect out (ip device) s2) as [[|] s3]; simpl;
      repeat rewrite <- app_assoc; eexists; eexists;
      (split; [reflexivity | auto]). }
  assert (Hproc : forall w0, outside w0 = outside w ->
            exists m s3,
              process_and_merge_biometric_with_employee_data out cfg (devices cfg)
                shift_index fuel w0
              = (Ok None,
                 {| outside := s3;
                    trace := trace w0 ++ [Connect (ip device) 4370 180;
                                          GetAttendance (ip device);
                                          Print (MsgFetched 0 (ip device));
                                          Disconnect (ip device);
                                          Print m] |})
              /\ (m = MsgNoData (device_id device) shift
                  \/ m = MsgSkippingDeviceError (device_id device) shift)).
  { intros w0 Hw0. destruct (Hfetch w0 Hw0) as (s3 & r & Hf & Hr).
    rewrite (process_unfold _ _ fuel w0 Hd Hs), Hf.
    destruct Hr as [Hr | Hr]; subst r; unfold emit; simpl; rewrite <- app_assoc;
      eexists; eexists; (split; [reflexivity | auto]). }
  split.
  - intros w0 Hw0. destruct (Hproc w0 Hw0) as (m & s3 & Hp & _). rewrite Hp. reflexivity.
  - destruct (Hproc (emit (Print (MsgProcessing (device_id device) shift)) w) eq_refl)
      as (m & s3 & Hp & _).
    assert (Hc := cycle_unfold _ fuel w Hd Hs). rewrite Hp in Hc.
    eexists. split; [exact Hc |]. split.
    + simpl. rewrite !posts_app. simpl. destruct m; simpl; rewrite !app_nil_r; reflexivity.
    + rewrite (main_loop_from_step fuel w Hlt), Hc. reflexivity.
Qed.

Lemma fetch_biometric_data_returns (ip : string) (port timeout : Z) (w : world St) :
  fst (fetch_biometric_data out ip port timeout w) <> Diverge.
Proof.
  unfold fetch_biometric_data, call.
  destruct (zk_connect out ip port timeout (outside w)) as [[|] s1]; simpl;
    [| discriminate].
  destruct (zk_get_attendance out ip s1) as [[l |] s2]; simpl;
    destruct (zk_disconnect out ip s2) as [[|] s3]; simpl; discriminate.
Qed.

Section Termination.

Hypothesis roster_ends : roster_fetch_terminates out.

(** With a roster fetch that ends, the engine returns, and what it does is
    the one visit of the device and the roster requests. *)
Lemma process_returns (devs : list Device) (shift_index : nat) (device : Device)
    (shift : string) (w : world St) :
  nth_error devs (shift_index mod length devs)%nat = Some device ->
  nth_error (SHIFT cfg) (shift_index mod length (SHIFT cfg))%nat = Some shift ->
  exists fuel0 r w1,
    (forall fuel, (fuel0 <= fuel)%nat ->
       process_and_merge_biometric_with_employee_data out cfg devs shift_index fuel w
       = (Ok r, w1))
    /\ connects (trace w1) = connects (trace w) ++ [ip device]
    /\ processing_log (trace w1) = processing_log (trace w).
Proof.
  intros Hd Hs.
  destruct (fetch_biometric_data_events (ip device) 4370 180 w) as (evs & Ht & Hev & Hcn).
  pose proof (@fetch_biometric_data_returns (ip device) 4370 180 w) as Hret.
  destruct (fetch_biometric_data out (ip device) 4370 180 w) as [[[| a l] | e |] wa] eqn:Hf;
    simpl in Ht, Hret; [| | | congruence].
  - exists 0%nat, None, (emit (Print (MsgNoData (device_id device) shift)) wa).
    split; [| split].
    + intros fuel _. rewrite (process_unfold _ _ fuel w Hd Hs), Hf. reflexivity.
    + rewrite trace_emit, Ht, !connects_app, Hcn. simpl. rewrite app_nil_r. reflexivity.
    + rewrite trace_emit, Ht, !processing_log_app, (processing_log_by_adapter _ Hev).
      simpl. rewrite !app_nil_r. reflexivity.
  - destruct (roster_ends wa) as [fuel0 Hfuel].
    destruct (fetch_employee_data_events fuel0 wa) as (evs' & Ht' & Hev').
    destruct (fetch_employee_data_result fuel0 wa) as [(emp_df & wb & He) | (wb & He)];
      [| rewrite He in Hfuel; simpl in Hfuel; congruence].
    rewrite He in Ht'. simpl in Ht'.
    exists fuel0, (Some (merge_and_filter cfg (a :: l) shift emp_df)), wb.
    split; [| split].
    + intros fuel Hle. rewrite (process_unfold _ _ fuel w Hd Hs), Hf.
      rewrite (@fetch_employee_data_more_fuel fuel0 wa Hfuel fuel Hle), He. reflexivity.
    + rewrite Ht', Ht, !connects_app, Hcn, (connects_by_fetcher _ Hev').
      rewrite app_nil_r. reflexivity.
    + rewrite Ht', Ht, !processing_log_app, (processing_log_by_adapter _ Hev),
        (processing_log_by_fetcher _ Hev').
      rewrite !app_nil_r. reflexivity.
  - exists 0%nat, None, (emit (Print (MsgSkippingDeviceError (device_id device) shift)) wa).
    split; [| split].
    + intros fuel _. rewrite (process_unfold _ _ fuel w Hd Hs), Hf. reflexivity.
    + rewrite trace_emit, Ht, !connects_app, Hcn. simpl. rewrite app_nil_r. reflexivity.
    + rewrite trace_emit, Ht, !processing_log_app, (processing_log_by_adapter _ Hev).
      simpl. rewrite !app_nil_r. reflexivity.
Qed.

(** A cycle returns, having announced and visited its device once. *)
Lemma cycle_returns (shift_index : nat) (device : Device) (shift : string) (w : world St) :
  cycle_pair cfg shift_index = Some (device, shift) ->
  exists fuel0 w1,
    (forall fuel, (fuel0 <= fuel)%nat -> cycle out cfg shift_index fuel w = (Ok tt, w1))
    /\ connects (trace w1) = connects (trace w) ++ [ip device]
    /\ processing_log (trace w1) = processing_log (trace w) ++ [(device_id device, shift)].
Proof.
  unfold cycle_pair. intros Hp.
  destruct (nth_error (devices cfg) (shift_index mod length (devices cfg))%nat)
    as [d |] eqn:Hd; [| discriminate].
  destruct (nth_error (SHIFT cfg) (shift_index mod length (SHIFT cfg))%nat)
    as [sh |] eqn:Hs; [| discriminate].
  injection Hp as -> ->.
  destruct (process_returns _ _ (emit (Print (MsgProcessing (device_id device) shift)) w)
              Hd Hs) as (fuel0 & r & w1 & Hproc & Hcn & Hlog).
  rewrite trace_emit, connects_app in Hcn. simpl in Hcn. rewrite app_nil_r in Hcn.
  rewrite trace_emit, processing_log_app in Hlog. simpl in Hlog.
  assert (Hskip : forall m,
             connects (trace (emit (Sleep 5) (emit (Print (MsgSkippingDevice m shift)) w1)))
             = connects (trace w) ++ [ip device]
             /\ processing_log
                  (trace (emit (Sleep 5) (emit (Print (MsgSkippingDevice m shift)) w1)))
                = processing_log (trace w) ++ [(device_id device, shift)]).
  { intros m. rewrite !trace_emit, !connects_app, !processing_log_app, Hcn, Hlog.
    simpl. rewrite !app_nil_r. split; reflexivity. }
  destruct r as [[| row df] |].
  - eexists fuel0, _. split; [| apply Hskip].
    intros fuel Hle. rewrite (cycle_unfold _ fuel w Hd Hs), (Hproc fuel Hle). reflexivity.
  - destruct (push_rows_events 2 (firstn 5 (row :: df))
                (emit (Print (MsgFrame (firstn 5 (row :: df)))) w1)) as (evs & Ht & Hev).
    eexists fuel0, _. split; [| split].
    + intros fuel Hle. rewrite (cycle_unfold _ fuel w Hd Hs), (Hproc fuel Hle). reflexivity.
    + unfold push_data_to_erp. cbn [snd].
      rewrite trace_emit, Ht, trace_emit, !connects_app, Hcn, (connects_by_submitter _ Hev).
      simpl. rewrite !app_nil_r. reflexivity.
    + unfold push_data_to_erp. cbn [snd].
      rewrite trace_emit, Ht, trace_emit, !processing_log_app, Hlog,
        (processing_log_by_submitter _ Hev).
      simpl. rewrite !app_nil_r. reflexivity.
  - eexists fuel0, _. split; [| apply Hskip].
    intros fuel Hle. rewrite (cycle_unfold _ fuel w Hd Hs), (Hproc fuel Hle). reflexivity.
Qed.

End Termination.

Lemma nth_error_mod_some {A} (l : list A) (i : nat) :
  l <> [] -> exists x, nth_error l (i mod length l)%nat = Some x.
Proof.
  intros Hl.
  destruct (nth_error l (i mod length l)%nat) as [x |] eqn:Hn; [exists x; reflexivity |].
  apply nth_error_None in Hn. exfalso.
  assert (length l <> 0)%nat by (destruct l; [congruence | discriminate]).
  pose proof (Nat.mod_upper_bound i (length l)). lia.
Qed.

Lemma cycle_pair_some (i : nat) :
  (i < length (devices cfg))%nat -> SHIFT cfg <> [] ->
  exists device shift,
    cycle_pair cfg i = Some (device, shift) /\ nth_error (devices cfg) i = Some device.
Proof.
  intros Hlt Hs. unfold cycle_pair. rewrite (Nat.mod_small _ _ Hlt).
  destruct (nth_error (devices cfg) i) as [d |] eqn:Hd.
  - destruct (nth_error_mod_some i Hs) as [sh Hsh]. rewrite Hsh.
    exists d, sh. auto.
  - apply nth_error_None in Hd. lia.
Qed.

(** The loop from the counter [i], with [k] devices still to visit. *)
Lemma main_loop_from_returns (k : nat) :
  SHIFT cfg <> [] -> roster_fetch_terminates out ->
  forall (i : nat) (w : world St),
    (i + k = length (devices cfg))%nat ->
    exists fuel0 w' pairs,
      (forall fuel, (fuel0 <= fuel)%nat -> main_loop_from out cfg fuel i w = (Ok tt, w'))
      /\ length pairs = k
      /\ (forall j, (j < k)%nat -> nth_error pairs j = cycle_pair cfg (i + j))
      /\ processing_log (trace w')
         = processing_log (trace w) ++ map (fun p => (device_id (fst p), snd p)) pairs
      /\ connects (trace w') = connects (trace w) ++ map (fun p => ip (fst p)) pairs.
Proof.
  intros Hs Hroster. induction k as [| k IH]; intros i w Hik.
  - exists 0%nat, (emit (Print MsgCompleted) w), []. repeat split.
    + intros fuel _. apply main_loop_from_exit. lia.
    + intros j Hj. lia.
    + rewrite trace_emit, processing_log_app. reflexivity.
    + rewrite trace_emit, connects_app. reflexivity.
  - assert (Hlt : (i < length (devices cfg))%nat) by lia.
    destruct (cycle_pair_some Hlt Hs) as (device & shift & Hpair & _).
    destruct (cycle_returns Hroster i w Hpair) as (fuel1 & w1 & Hcycle & Hcn & Hlog).
    destruct (IH (S i) w1 ltac:(lia)) as (fuel2 & w' & pairs & Hloop & Hlen & Hnth & Hlog' & Hcn').
    exists (Nat.max fuel1 fuel2), w', ((device, shift) :: pairs). repeat split.
    + intros fuel Hle. rewrite (main_loop_from_step fuel w Hlt).
      rewrite (Hcycle fuel ltac:(lia)). apply Hloop. lia.
    + simpl. rewrite Hlen. reflexivity.
    + intros [| j] Hj; simpl.
      * rewrite Nat.add_0_r. symmetry. exact Hpair.
      * rewrite Nat.add_succ_r. apply Hnth. lia.
    + rewrite Hlog', Hlog, <- app_assoc. reflexivity.
    + rewrite Hcn', Hcn, <- app_assoc. reflexivity.
Qed.

(** C7, as the code has it.  With a shift list that is not empty and roster
    fetches that end, the loop returns after one cycle for each configured
    device: cycle [i] takes [devices[i % len(devices)]] and
    [SHIFT[i % len(SHIFT)]], the devices are announced and visited once each
    in the order of the configuration, and at the counter [len(devices)] the
    loop leaves. *)
Theorem main_loop_one_pass (w : world St) :
  SHIFT cfg <> [] -> roster_fetch_terminates out ->
  exists fuel0 w' pairs,
    (forall fuel, (fuel0 <= fuel)%nat -> main_loop out cfg fuel w = (Ok tt, w'))
    /\ length pairs = length (devices cfg)
    /\ (forall i, (i < length (devices cfg))%nat -> nth_error pairs i = cycle_pair cfg i)
    /\ map fst pairs = devices cfg
    /\ processing_log (trace w')
       = processing_log (trace w) ++ map (fun p => (device_id (fst p), snd p)) pairs
    /\ connects (trace w') = connects (trace w) ++ map (fun p => ip (fst p)) pairs
    /\ (forall fuel w0,
          main_loop_from out cfg fuel (length (devices cfg)) w0
          = (Ok tt, emit (Print MsgCompleted) w0)).
Proof.
  intros Hs Hroster.
  destruct (@main_loop_from_returns (length (devices cfg)) Hs Hroster 0%nat w eq_refl)
    as (fuel0 & w' & pairs & Hloop & Hlen & Hnth & Hlog & Hcn).
  exists fuel0, w', pairs. repeat split; try assumption.
  - apply nth_error_ext. intros i.
    destruct (Nat.lt_ge_cases i (length (devices cfg))) as [Hlt | Hge].
    + pose proof (Hnth i Hlt) as Hi. simpl in Hi.
      destruct (cycle_pair_some Hlt Hs) as (device & shift & Hpair & Hd).
      rewrite nth_error_map, Hi, Hpair, Hd. reflexivity.
    + rewrite (proj2 (nth_error_None _ _)) by (rewrite length_map; lia).
      symmetry. apply nth_error_None. exact Hge.
  - intros fuel w0. apply main_loop_from_exit. lia.
Qed.

(** *** Further properties: the employee directory fetcher *)

Lemma gets_app (t1 t2 : list event) : gets (t1 ++ t2) = gets t1 ++ gets t2.
Proof. unfold gets. apply flat_map_app. Qed.

Lemma connections_app (t1 t2 : list event) :
  connections (t1 ++ t2) = connections t1 ++ connections t2.
Proof. unfold connections. apply flat_map_app. Qed.

Lemma added_app (t1 t2 : list event) : added (t1 ++ t2) = added t1 ++ added t2.
Proof. unfold added. apply flat_map_app. Qed.

Lemma given_up_app (t1 t2 : list event) : given_up (t1 ++ t2) = given_up t1 ++ given_up t2.
Proof. unfold given_up. apply flat_map_app. Qed.

Lemma sleeps_app (t1 t2 : list event) : sleeps (t1 ++ t2) = sleeps t1 ++ sleeps t2.
Proof. unfold sleeps. apply flat_map_app. Qed.

Lemma connections_by_fetcher evs : forallb by_fetcher evs = true -> connections evs = [].
Proof. apply flat_map_ignored. by_cases. Qed.

Lemma connections_by_submitter evs :
  forallb by_submitter evs = true -> connections evs = [].
Proof. apply flat_map_ignored. by_cases. Qed.

Lemma gets_by_adapter evs : forallb by_adapter evs = true -> gets evs = [].
Proof. apply flat_map_ignored. by_cases. Qed.

Lemma gets_by_submitter evs : forallb by_submitter evs = true -> gets evs = [].
Proof. apply flat_map_ignored. by_cases. Qed.

Lemma offsets_cons (start step : Z) (n : nat) :
  (start, step) :: map (fun k => (start + step + step * Z.of_nat k, step)) (seq 0 n)
  = map (fun k => (start + step * Z.of_nat k, step)) (seq 0 (S n)).
Proof.
  change (seq 0 (S n)) with (0%nat :: seq 1 n).
  cbn [map]. rewrite <- seq_shift, map_map. f_equal.
  - f_equal. lia.
  - apply map_ext. intros k. f_equal. lia.
Qed.

Lemma fetch_pages_gets (fuel : nat) (limit_start : Z) (all_data : list Employee)
    (w : world St) :
  fst (fetch_pages out fuel limit_start all_data w) <> Diverge ->
  exists n : nat,
    gets (trace (snd (fetch_pages out fuel limit_start all_data w)))
    = gets (trace w)
      ++ (limit_start, limit_page_length)
         :: map (fun k => (limit_start + limit_page_length
                           + limit_page_length * Z.of_nat k, limit_page_length))
                (seq 0 n).
Proof.
  revert limit_start all_data w.
  induction fuel as [| fuel IH]; intros limit_start all_data w; simpl.
  - intros H. exfalso. apply H. reflexivity.
  - destruct (call (HttpGet limit_start limit_page_length)
                (session_get out limit_start limit_page_length) w)
      as [[| [[| e so_data] |]] w1] eqn:Hc; apply call_inv in Hc; destruct Hc as [_ Ht];
      cbn [fst snd].
    + intros _. exists 0%nat.
      rewrite trace_emit, Ht, !gets_app. simpl. rewrite app_nil_r. reflexivity.
    + intros _. exists 0%nat. rewrite Ht, !gets_app. reflexivity.
    + intros H. destruct (IH _ _ _ H) as [n Hn]. exists (S n).
      rewrite Hn, Ht, gets_app, <- app_assoc, offsets_cons. reflexivity.
    + intros _. exists 0%nat. rewrite Ht, !gets_app. reflexivity.
Qed.

(** X1.  A roster fetch that returns has asked for the pages at the offsets
    0, 1000, 2000, ... in this order, 1000 records each, and for at least
    one page. *)
Theorem fetch_employee_data_offsets (fuel : nat) (w w' : world St)
    (emp_df : list Employee) :
  fetch_employee_data out fuel w = (Ok emp_df, w') ->
  exists n : nat,
    gets (trace w')
    = gets (trace w) ++ map (fun k => (1000 * Z.of_nat k, 1000)) (seq 0 (S n)).
Proof.
  unfold fetch_employee_data, bind. intros H.
  destruct (@fetch_pages_gets fuel 0 [] w) as [n Hn].
  - destruct (fetch_pages out fuel 0 [] w) as [[l | e |] w1]; simpl; congruence.
  - exists n.
    destruct (fetch_pages out fuel 0 [] w) as [[l | e |] w1]; try discriminate.
    unfold ret in H. inversion H; subst. cbn [snd] in Hn. rewrite Hn.
    rewrite (offsets_cons 0 limit_page_length n). reflexivity.
Qed.

Lemma flat_map_seq_shift {B} (f : nat -> list B) (n : nat) :
  flat_map f (seq 1 n) = flat_map (fun k => f (S k)) (seq 0 n).
Proof.
  rewrite <- seq_shift. induction (seq 0 n) as [| k l IH]; [reflexivity |].
  cbn [map flat_map]. rewrite IH. reflexivity.
Qed.

Section PagedBackend.

(** A backend whose answer to a roster request depends on the offset
    alone. *)
Variable page : Z -> get_response.
Hypothesis serves_pages :
  forall (limit_start : Z) (s : St),
    fst (session_get out limit_start limit_page_length s) = page limit_start.

Lemma fetch_pages_collects (n : nat) :
  forall (fuel : nat) (limit_start : Z) (all_data : list Employee) (w : world St),
    (forall k, (k < n)%nat ->
       records_of (page (limit_start + limit_page_length * Z.of_nat k)) <> []) ->
    records_of (page (limit_start + limit_page_length * Z.of_nat n)) = [] ->
    (n < fuel)%nat ->
    fst (fetch_pages out fuel limit_start all_data w)
    = Ok (all_data
          ++ flat_map (fun k => records_of (page (limit_start
                                                  + limit_page_length * Z.of_nat k)))
                      (seq 0 n)).
Proof.
  induction n as [| n IH]; intros fuel limit_start all_data w Hfull Hstop Hfuel;
    (destruct fuel as [| fuel]; [lia |]); cbn [fetch_pages];
    pose proof (serves_pages limit_start (outside w)) as Hp; unfold call;
    destruct (session_get out limit_start limit_page_length (outside w)) as [r s1];
    cbn [fst] in Hp; subst r.
  - rewrite Z.mul_0_r, Z.add_0_r in Hstop. cbn [seq flat_map]. rewrite app_nil_r.
    destruct (page limit_start) as [| [[| e l] |]]; try reflexivity.
    discriminate Hstop.
  - pose proof (Hfull 0%nat ltac:(lia)) as H0.
    rewrite Z.mul_0_r, Z.add_0_r in H0.
    cbn [seq flat_map]. rewrite Z.mul_0_r, Z.add_0_r.
    destruct (page limit_start) as [| [[| e l] |]] eqn:Hpage;
      try (exfalso; apply H0; reflexivity).
    cbn [records_of]. rewrite IH.
    + rewrite <- app_assoc. f_equal. f_equal.
      rewrite flat_map_seq_shift. f_equal.
      apply flat_map_ext. intros k. do 2 f_equal. lia.
    + intros k Hk. specialize (Hfull (S k) ltac:(lia)).
      replace (limit_start + limit_page_length + limit_page_length * Z.of_nat k)
        with (limit_start + limit_page_length * Z.of_nat (S k)) by lia.
      exact Hfull.
    + replace (limit_start + limit_page_length + limit_page_length * Z.of_nat n)
        with (limit_start + limit_page_length * Z.of_nat (S n)) by lia.
      exact Hstop.
    + lia.
Qed.

(** X2.  Against a backend that serves the roster in pages, the fetch
    returns the records of the pages before the first one that ends the
    pagination (an empty page, an answer without ['data'], a failed
    request), in the order of the pages: the whole roster when the first
    such page is past its end, what was collected so far otherwise. *)
Theorem fetch_employee_data_collects_pages (n fuel : nat) (w : world St) :
  (forall k, (k < n)%nat -> records_of (page (1000 * Z.of_nat k)) <> []) ->
  records_of (page (1000 * Z.of_nat n)) = [] ->
  (n < fuel)%nat ->
  fst (fetch_employee_data out fuel w)
  = Ok (flat_map (fun k => records_of (page (1000 * Z.of_nat k))) (seq 0 n)).
Proof.
  intros Hfull Hstop Hfuel. unfold fetch_employee_data, bind.
  pose proof (@fetch_pages_collects n fuel 0 [] w Hfull Hstop Hfuel) as H.
  destruct (fetch_pages out fuel 0 [] w) as [[l | e |] w1]; cbn [fst] in H;
    try discriminate.
  injection H as ->. cbn [app].
  destruct (flat_map _ _); reflexivity.
Qed.

End PagedBackend.


(** *** Further properties: the device client adapter *)

(** X4.  The adapter returns a non-empty list exactly when the connection,
    the retrieval and the end of the session all went through, and the list
    is then the one the terminal gave. *)
Theorem fetch_biometric_data_returns_device_events (ip : string) (port timeout : Z)
    (w : world St) (a : Attendance) (l : list Attendance) :
  fst (fetch_biometric_data out ip port timeout w) = Ok (a :: l)
  <-> exists s1 s2 s3,
        zk_connect out ip port timeout (outside w) = (true, s1)
        /\ zk_get_attendance out ip s1 = (Some (a :: l), s2)
        /\ zk_disconnect out ip s2 = (true, s3).
Proof.
  unfold fetch_biometric_data, call.
  destruct (zk_connect out ip port timeout (outside w)) as [[|] s1] eqn:Hc; cbn.
  - destruct (zk_get_attendance out ip s1) as [[l' |] s2] eqn:Hg; cbn;
      destruct (zk_disconnect out ip s2) as [[|] s3] eqn:Hd; cbn; split;
      try discriminate.
    + intros H. inversion H; subst. exists s1, s2, s3. auto.
    + intros (s1' & s2' & s3' & H1 & H2 & H3). inversion H1; subst s1'.
      rewrite Hg in H2. inversion H2. reflexivity.
    + intros (s1' & s2' & s3' & H1 & H2 & H3). inversion H1; subst s1'.
      rewrite Hg in H2. inversion H2; subst s2'. rewrite Hd in H3. discriminate.
    + intros (s1' & s2' & s3' & H1 & H2 & H3). inversion H1; subst s1'.
      rewrite Hg in H2. discriminate.
    + intros (s1' & s2' & s3' & H1 & H2 & H3). inversion H1; subst s1'.
      rewrite Hg in H2. discriminate.
  - split; [discriminate |]. intros (s1' & s2' & s3' & H1 & _). discriminate.
Qed.

(** X5.  The only exception that leaves the adapter is the one of a
    [disconnect] that fails on an established connection. *)
Theorem fetch_biometric_data_raises_only_at_disconnect (ip : string) (port timeout : Z)
    (w : world St) (e : exn) :
  fst (fetch_biometric_data out ip port timeout w) = Raise e ->
  e = DeviceException
  /\ exists s1 r s2 s3,
       zk_connect out ip port timeout (outside w) = (true, s1)
       /\ zk_get_attendance out ip s1 = (r, s2)
       /\ zk_disconnect out ip s2 = (false, s3).
Proof.
  unfold fetch_biometric_data, call.
  destruct (zk_connect out ip port timeout (outside w)) as [[|] s1]; cbn;
    [| discriminate].
  destruct (zk_get_attendance out ip s1) as [[l' |] s2] eqn:Hg; cbn;
    destruct (zk_disconnect out ip s2) as [[|] s3] eqn:Hd; cbn; try discriminate;
    intros H; inversion H; (split; [reflexivity |]);
    eexists; eexists; eexists; eexists; repeat split; eassumption.
Qed.

Lemma fetch_biometric_data_connections (ip : string) (port timeout : Z) (w : world St) :
  exists evs,
    trace (snd (fetch_biometric_data out ip port timeout w)) = trace w ++ evs
    /\ connections evs = [(ip, port, timeout)]
    /\ gets evs = [] /\ posts evs = [].
Proof.
  unfold fetch_biometric_data, call, emit.
  destruct (zk_connect out ip port timeout (outside w)) as [[|] s1]; simpl.
  - destruct (zk_get_attendance out ip s1) as [[l |] s2]; simpl;
      destruct (zk_disconnect out ip s2) as [[|] s3]; simpl;
      repeat rewrite <- app_assoc; eexists; (split; [reflexivity |]);
      repeat split; reflexivity.
  - rewrite <- app_assoc. eexists; split; [reflexivity |]. repeat split; reflexivity.
Qed.

(** *** Further properties: the merge and filter engine *)

(** What the engine does to the outside, whatever it returns. *)
Lemma process_events (devs : list Device) (shift_index fuel : nat) (device : Device)
    (shift : string) (w : world St) :
  nth_error devs (shift_index mod length devs)%nat = Some device ->
  nth_error (SHIFT cfg) (shift_index mod length (SHIFT cfg))%nat = Some shift ->
  exists evs,
    trace (snd (process_and_merge_biometric_with_employee_data out cfg devs shift_index
                  fuel w)) = trace w ++ evs
    /\ connections evs = [(ip device, 4370, 180)]
    /\ posts evs = []
    /\ (forall r, fst (process_and_merge_biometric_with_employee_data out cfg devs
                         shift_index fuel w) = Ok r ->
                  (r = None <-> gets evs = [])).
Proof.
  intros Hd Hs. rewrite (process_unfold _ _ fuel w Hd Hs).
  destruct (fetch_biometric_data_connections (ip device) 4370 180 w)
    as (evs & Ht & Hc & Hg & Hp).
  destruct (fetch_biometric_data out (ip device) 4370 180 w) as [[[| a l] | e |] wa];
    cbn [snd] in Ht; cbv beta iota; cbn [fst snd].
  - eexists. rewrite trace_emit, Ht, <- app_assoc. split; [reflexivity |].
    rewrite connections_app, posts_app, gets_app, Hc, Hg, Hp. repeat split; auto.
    intros _. congruence.
  - destruct (fetch_employee_data_events fuel wa) as (evs' & Ht' & Hev').
    pose proof (fetch_employee_data_offsets fuel wa) as Hoff.
    destruct (fetch_employee_data out fuel wa) as [[emp_df | e |] wb]; cbn [snd fst] in *;
      eexists; rewrite Ht', Ht, <- app_assoc; (split; [reflexivity |]);
      rewrite connections_app, posts_app, gets_app, Hc, Hg, Hp,
        (connections_by_fetcher _ Hev'), (posts_by_fetcher _ Hev');
      repeat split; try discriminate.
    + intros Hr. congruence.
    + destruct (Hoff wb emp_df eq_refl) as [n Hn].
      rewrite Ht', gets_app in Hn. apply app_inv_head in Hn.
      cbn [app]. rewrite Hn. discriminate.
  - eexists. rewrite trace_emit, Ht, <- app_assoc. split; [reflexivity |].
    rewrite connections_app, posts_app, gets_app, Hc, Hg, Hp. repeat split; auto.
    intros _. congruence.
  - exists evs. rewrite Hc, Hg, Hp. repeat split; try assumption; discriminate.
Qed.

(** X6.  The engine opens one connection per run, to the address of the
    device of the cycle, always on port 4370 with a timeout of 180: the
    [port] of the configuration entry is not read. *)
Theorem process_connects_on_default_port (devs : list Device) (shift_index fuel : nat)
    (device : Device) (w : world St) :
  nth_error devs (shift_index mod length devs)%nat = Some device ->
  SHIFT cfg <> [] ->
  connections (trace (snd (process_and_merge_biometric_with_employee_data out cfg devs
                             shift_index fuel w)))
  = connections (trace w) ++ [(ip device, 4370, 180)].
Proof.
  intros Hd Hs. destruct (nth_error_mod_some shift_index Hs) as [shift Hsh].
  destruct (process_events _ _ fuel w Hd Hsh) as (evs & Ht & Hc & _).
  rewrite Ht, connections_app, Hc. reflexivity.
Qed.

(** X7.  With an empty device list, or with devices and an empty shift list,
    the engine raises [ZeroDivisionError] before it touches the outside. *)
Theorem process_raises_on_empty_configuration (devs : list Device)
    (shift_index fuel : nat) (w : world St) :
  devs = [] \/ SHIFT cfg = [] ->
  process_and_merge_biometric_with_employee_data out cfg devs shift_index fuel w
  = (Raise ZeroDivisionError, w).
Proof.
  intros H. unfold process_and_merge_biometric_with_employee_data.
  destruct devs as [| d devs].
  - reflexivity.
  - destruct H as [H | H]; [discriminate |].
    unfold bind at 1.
    destruct (@nth_error_mod_some _ (d :: devs) shift_index ltac:(discriminate))
      as [device Hd].
    rewrite (index_mod_some _ _ w Hd). unfold bind at 1. rewrite H. reflexivity.
Qed.

(** X8.  The roster is requested exactly in the runs of the engine that
    give a result: a run that returns nothing (no event, or a terminal that
    failed) asks the backend for nothing. *)
Theorem process_fetches_roster_iff_result (devs : list Device) (shift_index fuel : nat)
    (w w' : world St) (r : option DataFrame) :
  process_and_merge_biometric_with_employee_data out cfg devs shift_index fuel w
  = (Ok r, w') ->
  (r = None <-> gets (trace w') = gets (trace w)).
Proof.
  intros H.
  assert (Hlook : exists device shift,
             nth_error devs (shift_index mod length devs)%nat = Some device
             /\ nth_error (SHIFT cfg) (shift_index mod length (SHIFT cfg))%nat = Some shift).
  { unfold process_and_merge_biometric_with_employee_data in H. unfold bind at 1 in H.
    destruct (index_mod devs shift_index w) as [[d | e |] w1] eqn:Hi; try discriminate.
    apply index_mod_inv in Hi. destruct Hi as [-> Hd].
    unfold bind at 1 in H.
    destruct (index_mod (SHIFT cfg) shift_index w) as [[sh | e |] w1] eqn:Hi;
      try discriminate.
    apply index_mod_inv in Hi. destruct Hi as [_ Hs]. exists d, sh. auto. }
  destruct Hlook as (device & shift & Hd & Hs).
  destruct (process_events _ _ fuel w Hd Hs) as (evs & Ht & _ & _ & Hg).
  rewrite H in Ht, Hg. cbn [fst snd] in Ht, Hg.
  rewrite Ht, gets_app, (Hg r eq_refl). split.
  - intros ->. apply app_nil_r.
  - intros Happ. rewrite <- (app_nil_r (gets (trace w))) in Happ at 2.
    apply app_inv_head in Happ. exact Happ.
Qed.

Lemma key_matches_spec (key : string) (e : Employee) :
  key_matches key e = true <-> attendance_device_id e = Some key.
Proof.
  unfold key_matches. destruct (attendance_device_id e) as [k |].
  - rewrite String.eqb_eq. split; congruence.
  - split; discriminate.
Qed.

Lemma rows_of_joined (emp_df : list Employee) (a : Attendance) (shift : string) (r : Row) :
  In r (rows_of emp_df a shift) ->
  row_shift r = shift
  /\ attendance_of r = a
  /\ ((exists e, In e emp_df
                 /\ attendance_device_id e = Some (row_attendance_device_id r)
                 /\ row_employee r = employee e
                 /\ row_employee_name r = employee_name e)
      \/ ((forall e, In e emp_df ->
                     attendance_device_id e <> Some (row_attendance_device_id r))
          /\ row_employee r = None /\ row_employee_name r = None)).
Proof.
  unfold rows_of.
  destruct (filter (key_matches (user_id a)) emp_df) as [| e0 matches] eqn:Hf.
  - intros [<- | []]. repeat split; [destruct a; reflexivity |]. right.
    repeat split. intros e He Hk. cbn [row_attendance_device_id merged_row] in Hk.
    apply key_matches_spec in Hk.
    assert (Hin : In e (filter (key_matches (user_id a)) emp_df))
      by (apply filter_In; auto).
    rewrite Hf in Hin. destruct Hin.
  - intros Hr. apply in_map_iff in Hr. destruct Hr as (e & <- & He).
    rewrite <- Hf in He. apply filter_In in He. destruct He as [He Hk].
    apply key_matches_spec in Hk.
    repeat split; [destruct a; reflexivity |]. left. exists e. auto.
Qed.

Lemma pd_merge_left_rows (device_data : list Attendance) (shift : string)
    (emp_df : list Employee) (r : Row) :
  In r (pd_merge_left (map (fun attendance => (attendance, shift)) device_data) emp_df) ->
  exists a, In a device_data /\ In r (rows_of emp_df a shift).
Proof.
  unfold pd_merge_left. intros Hr. apply in_flat_map in Hr.
  destruct Hr as ([a s] & Ha & Hr). apply in_map_iff in Ha.
  destruct Ha as (a' & Heq & Ha'). inversion Heq; subst. exists a. auto.
Qed.

(** X9.  The rows of a result of the engine: each carries the shift of the
    cycle and the columns of one of the events the terminal returned, and
    either the employee and name of a roster record that has the event's
    device identifier, or null for both when the roster fetched in this run
    has no such record. *)
Theorem process_rows_are_joined (devs : list Device) (shift_index fuel : nat)
    (w w' : world St) (df : DataFrame) :
  process_and_merge_biometric_with_employee_data out cfg devs shift_index fuel w
  = (Ok (Some df), w') ->
  exists device shift device_data emp_df wa,
    nth_error devs (shift_index mod length devs)%nat = Some device
    /\ nth_error (SHIFT cfg) (shift_index mod length (SHIFT cfg))%nat = Some shift
    /\ fetch_biometric_data out (ip device) 4370 180 w = (Ok device_data, wa)
    /\ fetch_employee_data out fuel wa = (Ok emp_df, w')
    /\ forall r, In r df ->
         row_shift r = shift
         /\ In (attendance_of r) device_data
         /\ ((exists e, In e emp_df
                        /\ attendance_device_id e = Some (row_attendance_device_id r)
                        /\ row_employee r = employee e
                        /\ row_employee_name r = employee_name e)
             \/ ((forall e, In e emp_df ->
                            attendance_device_id e <> Some (row_attendance_device_id r))
                 /\ row_employee r = None /\ row_employee_name r = None)).
Proof.
  intros H.
  destruct (process_result _ _ _ _ H)
    as (device & shift & device_data & emp_df & wa & Hd & Hs & Hf & _ & He & Hdf).
  exists device, shift, device_data, emp_df, wa.
  split; [exact Hd |]. split; [exact Hs |]. split; [exact Hf |]. split; [exact He |].
  intros r Hin. subst df. unfold merge_and_filter in Hin. apply filter_In in Hin.
  destruct Hin as [Hr _]. apply pd_merge_left_rows in Hr.
  destruct Hr as (a & Ha & Hr). destruct (rows_of_joined _ _ _ _ Hr) as (H1 & H2 & H3).
  split; [exact H1 |]. split; [rewrite H2; exact Ha | exact H3].
Qed.

Lemma filter_key_unique (key : string) (emp_df : list Employee) :
  NoDup (roster_keys emp_df) ->
  (length (filter (key_matches key) emp_df) <= 1)%nat.
Proof.
  induction emp_df as [| e emp_df IH]; intros Hnd; [simpl; lia |].
  cbn [filter]. destruct (key_matches key e) eqn:Hk.
  - apply key_matches_spec in Hk. unfold roster_keys in Hnd. cbn [flat_map] in Hnd.
    rewrite Hk in Hnd. cbn [app] in Hnd. inversion Hnd as [| ? ? Hnotin Hnd']; subst.
    assert (Hnone : filter (key_matches key) emp_df = []).
    { destruct (filter (key_matches key) emp_df) as [| e' l] eqn:Hf; [reflexivity |].
      exfalso. apply Hnotin.
      assert (Hin : In e' (filter (key_matches key) emp_df)) by (rewrite Hf; left; auto).
      apply filter_In in Hin. destruct Hin as [Hin Hk'].
      apply key_matches_spec in Hk'. apply in_flat_map. exists e'.
      split; [exact Hin |]. rewrite Hk'. left. reflexivity. }
    rewrite Hnone. simpl. lia.
  - apply IH. unfold roster_keys in Hnd. cbn [flat_map] in Hnd.
    apply NoDup_app_remove_l in Hnd. exact Hnd.
Qed.

(** X10.  With a roster in which no two records have the same device
    identifier, the merged and filtered frame has exactly one row for each
    raw event of the window, in the order of the raw events. *)
Theorem merge_and_filter_one_row_per_event (device_data : list Attendance)
    (shift : string) (emp_df : list Employee) :
  NoDup (roster_keys emp_df) ->
  map attendance_of (merge_and_filter cfg device_data shift emp_df)
  = filter (fun a => in_window cfg (timestamp a)) device_data.
Proof.
  intros Hnd. rewrite merge_and_filter_order.
  induction (filter (fun a => in_window cfg (timestamp a)) device_data) as [| a l IH];
    [reflexivity |].
  cbn [flat_map]. rewrite IH. unfold copies.
  pose proof (@filter_key_unique (user_id a) emp_df Hnd) as Hle.
  replace (Nat.max 1 (length (filter (key_matches (user_id a)) emp_df))) with 1%nat by lia.
  reflexivity.
Qed.

(** *** Further properties: the delivery submitter *)

Lemma retry_loop_done (max_retries : Z) (employee : string) (p : Payload)
    (retry_count : Z) (w : world St) :
  retry_loop out max_retries employee p retry_count true w = (true, w).
Proof.
  simp retry_loop. destruct (Z_lt_dec retry_count max_retries); reflexivity.
Qed.

Lemma retry_loop_no_budget (max_retries : Z) (employee : string) (p : Payload)
    (retry_count : Z) (w : world St) :
  max_retries <= retry_count ->
  retry_loop out max_retries employee p retry_count false w = (false, w).
Proof.
  intros H. simp retry_loop.
  destruct (Z_lt_dec retry_count max_retries); [lia | reflexivity].
Qed.

(** How the loop ends, whatever the endpoint answers. *)
Lemma retry_loop_outcome (max_retries : Z) (employee : string) (p : Payload)
    (retry_count : Z) (success : bool) (w : world St) :
  success = false ->
  exists (k : nat) (evs : list event),
    trace (snd (retry_loop out max_retries employee p retry_count success w))
    = trace w ++ evs
    /\ posts evs = repeat p k
    /\ given_up evs = []
    /\ (if fst (retry_loop out max_retries employee p retry_count success w)
        then (1 <= k <= Z.to_nat (max_retries - retry_count))%nat
             /\ added evs = [employee]
             /\ sleeps evs = repeat 2 (k - 1)
        else k = Z.to_nat (max_retries - retry_count)
             /\ added evs = []
             /\ sleeps evs = repeat 2 k).
Proof.
  funelim (retry_loop out max_retries employee p retry_count success w); intros Hs;
    try discriminate.
  all: try match goal with
           | Hc : call _ _ _ = _ |- _ => apply call_inv in Hc; destruct Hc as [_ Ht]
           end.
  - subst success. exists 0%nat, []. cbn [fst snd]. rewrite app_nil_r.
    repeat split. lia.
  - match goal with
    | IH : _ = _ -> exists _ _, _ |- _ =>
        destruct (IH eq_refl) as (k & evs & Htr & Hp & Hg & Hend)
    end.
    exists (S k),
      ([HttpPost json_payload; Print (MsgRequestFailed employee0); Sleep 2] ++ evs).
    rewrite Htr, !trace_emit, Ht, <- !app_assoc.
    rewrite posts_app, given_up_app, added_app, sleeps_app, Hp, Hg.
    split; [reflexivity |]. split; [reflexivity |]. split; [reflexivity |].
    match type of Hend with (if ?b then _ else _) => destruct b end;
      destruct Hend as (Hk & Ha & Hsl); rewrite Ha, Hsl.
    + repeat split; try lia; try reflexivity. cbn [sleeps flat_map app].
      replace (S k - 1)%nat with (S (k - 1)) by lia. reflexivity.
    + repeat split; try lia; try reflexivity.
  - rewrite retry_loop_done. cbn [fst snd].
    exists 1%nat, [HttpPost json_payload; Print (MsgAdded employee0)].
    rewrite trace_emit, Ht, <- app_assoc. repeat split; try lia; try reflexivity.
  - match goal with
    | IH : _ = _ -> exists _ _, _ |- _ =>
        destruct (IH eq_refl) as (k & evs & Htr & Hp & Hg & Hend)
    end.
    exists (S k),
      ([HttpPost json_payload; Print (MsgFailedStatus employee0 status_code); Sleep 2]
         ++ evs).
    rewrite Htr, !trace_emit, Ht, <- !app_assoc.
    rewrite posts_app, given_up_app, added_app, sleeps_app, Hp, Hg.
    split; [reflexivity |]. split; [reflexivity |]. split; [reflexivity |].
    match type of Hend with (if ?b then _ else _) => destruct b end;
      destruct Hend as (Hk & Ha & Hsl); rewrite Ha, Hsl.
    + repeat split; try lia; try reflexivity. cbn [sleeps flat_map app].
      replace (S k - 1)%nat with (S (k - 1)) by lia. reflexivity.
    + repeat split; try lia; try reflexivity.
Qed.

(** X11.  A row with an employee, whatever the endpoint answers.  Only the
    row's own payload is posted.  Either the row is delivered: then it took
    between one and [max_retries] attempts, the acceptance is reported once
    and every attempt but the last was followed by the 2 second pause.  Or
    the row is given up: then exactly [max_retries] attempts were made (none
    for a bound of zero or less), each followed by the pause, and the
    failure is reported once. *)
Theorem push_row_delivers_or_exhausts (max_retries : Z) (row : Row) (e : string)
    (w : world St) :
  row_employee row = Some e ->
  exists (k : nat) (evs : list event),
    trace (push_row out max_retries row w) = trace w ++ evs
    /\ posts evs = repeat (payload_of e row) k
    /\ ((added evs = [e] /\ given_up evs = []
         /\ (1 <= k <= Z.to_nat max_retries)%nat /\ sleeps evs = repeat 2 (k - 1))
        \/ (added evs = [] /\ given_up evs = [e]
            /\ k = Z.to_nat max_retries /\ sleeps evs = repeat 2 k)).
Proof.
  intros He. unfold push_row. rewrite He.
  destruct (@retry_loop_outcome max_retries e (payload_of e row) 0 false w eq_refl)
    as (k & evs & Ht & Hp & Hg & Hend).
  rewrite Z.sub_0_r in Hend.
  destruct (retry_loop out max_retries e (payload_of e row) 0 false w) as [[|] w1];
    cbn [fst snd] in *; destruct Hend as (Hk & Ha & Hs).
  - exists k, evs. split; [exact Ht |]. split; [exact Hp |]. left. auto.
  - exists k, (evs ++ [Print (MsgFailedPush e max_retries)]).
    rewrite trace_emit, Ht, <- app_assoc. split; [reflexivity |].
    rewrite posts_app, added_app, given_up_app, sleeps_app, Hp, Ha, Hg, Hs.
    cbn. rewrite !app_nil_r. split; [reflexivity |]. right. auto.
Qed.

(** X12.  With a retry bound of zero or less the submitter posts nothing:
    all it does is report every row, with an employee as failed, without
    one as skipped. *)
Theorem push_data_to_erp_without_retries (df : DataFrame) (max_retries : Z)
    (w : world St) :
  max_retries <= 0 ->
  snd (push_data_to_erp out df max_retries w)
  = {| outside := outside w;
       trace := trace w
                ++ map (fun row => Print (match row_employee row with
                                          | Some e => MsgFailedPush e max_retries
                                          | None => MsgSkippingNaN
                                          end)) df |}.
Proof.
  intros Hmr. unfold push_data_to_erp. cbn [snd]. revert w.
  induction df as [| row df IH]; intros w.
  - cbn. rewrite app_nil_r. destruct w; reflexivity.
  - cbn [push_rows map]. rewrite IH. unfold push_row.
    destruct (row_employee row) as [e |].
    + rewrite retry_loop_no_budget by exact Hmr.
      cbn. rewrite <- app_assoc. reflexivity.
    + cbn. rewrite <- app_assoc. reflexivity.
Qed.

Section Accepting.

Variable status_code : Z.
Hypothesis endpoint_accepts : always_status out status_code.
Hypothesis status_good : status_ok status_code = true.



End Accepting.

(** The requests of a batch: those of its rows with an employee, each at
    most [max_retries] times. *)
Lemma push_rows_posts_bounded (max_retries : Z) (df : DataFrame) (w : world St) :
  exists ps : list Payload,
    posts (trace (push_rows out max_retries df w)) = posts (trace w) ++ ps
    /\ (length ps <= Z.to_nat max_retries * length (payloads_of df))%nat
    /\ forall p, In p ps -> In p (payloads_of df).
Proof.
  revert w. induction df as [| row df IH]; intros w; cbn [push_rows].
  - exists []. rewrite app_nil_r. split; [reflexivity |]. split; [simpl; lia |].
    intros p [].
  - destruct (IH (push_row out max_retries row w)) as (ps & Hps & Hlen & Hin).
    unfold payloads_of in *. cbn [flat_map]. rewrite Hps. unfold push_row.
    destruct (row_employee row) as [e |].
    + destruct (retry_loop_posts max_retries e (payload_of e row) 0 false w)
        as (k & Hk & Hle).
      rewrite Z.sub_0_r in Hle.
      assert (Hpost : posts (trace (let '(success, w1) :=
                                      retry_loop out max_retries e (payload_of e row) 0
                                        false w in
                                    if success then w1
                                    else emit (Print (MsgFailedPush e max_retries)) w1))
                      = posts (trace w) ++ repeat (payload_of e row) k).
      { destruct (retry_loop out max_retries e (payload_of e row) 0 false w)
          as [[|] w1]; cbn [snd] in Hk; [exact Hk |].
        rewrite trace_emit, posts_app, Hk. cbn. apply app_nil_r. }
      rewrite Hpost, <- app_assoc. eexists. split; [reflexivity |]. split.
      * rewrite length_app, repeat_length. cbn [app length]. nia.
      * intros p Hp. apply in_app_or in Hp. destruct Hp as [Hp | Hp].
        -- apply repeat_spec in Hp. subst p. left. reflexivity.
        -- right. apply Hin. exact Hp.
    + rewrite trace_emit, posts_app. cbn. rewrite app_nil_r.
      exists ps. split; [reflexivity |]. split; [exact Hlen | exact Hin].
Qed.

(** X14.  Whatever the endpoint answers, a batch is posted at most
    [max_retries] times the number of its rows that have an employee, and
    every request carries one of these rows. *)
Theorem push_data_to_erp_posts_bounded (df : DataFrame) (max_retries : Z) (w : world St) :
  exists ps : list Payload,
    posts (trace (snd (push_data_to_erp out df max_retries w))) = posts (trace w) ++ ps
    /\ (length ps <= Z.to_nat max_retries * length (payloads_of df))%nat
    /\ forall p, In p ps -> In p (payloads_of df).
Proof. unfold push_data_to_erp. cbn [snd]. apply push_rows_posts_bounded. Qed.

(** *** Further properties: the scheduler *)

Lemma cycle_without_pair (shift_index fuel : nat) (w : world St) :
  cycle_pair cfg shift_index = None ->
  exists e, cycle out cfg shift_index fuel w = (Raise e, w).
Proof.
  unfold cycle_pair, cycle. intros H. unfold bind at 1. unfold index_mod at 1.
  destruct (devices cfg) as [| d l] eqn:Hdev; [eexists; reflexivity |].
  destruct (nth_error (d :: l) (shift_index mod length (d :: l))%nat) as [device |];
    [| eexists; reflexivity].
  cbn. unfold bind at 1. unfold index_mod at 1.
  destruct (SHIFT cfg) as [| s l'] eqn:Hsh; [eexists; reflexivity |].
  destruct (nth_error (s :: l') (shift_index mod length (s :: l'))%nat) as [shift |];
    [discriminate | eexists; reflexivity].
Qed.

Lemma in_firstn {A} (n : nat) (l : list A) (x : A) : In x (firstn n l) -> In x l.
Proof.
  intros H. rewrite <- (firstn_skipn n l). apply in_or_app. left. exact H.
Qed.

Lemma payloads_of_length (df : DataFrame) : (length (payloads_of df) <= length df)%nat.
Proof.
  unfold payloads_of. induction df as [| row df IH]; [simpl; lia |].
  cbn [flat_map]. rewrite length_app. destruct (row_employee row); simpl in *; lia.
Qed.

Lemma payloads_of_in (df : DataFrame) (p : Payload) :
  In p (payloads_of df) ->
  exists row e, In row df /\ row_employee row = Some e /\ p = payload_of e row.
Proof.
  unfold payloads_of. intros H. apply in_flat_map in H. destruct H as (row & Hr & Hp).
  destruct (row_employee row) as [e |] eqn:He; [| destruct Hp].
  destruct Hp as [<- | []]. exists row, e. auto.
Qed.

(** What a cycle posts, whatever its outcome. *)
Lemma cycle_posts (shift_index fuel : nat) (w : world St) :
  exists ps : list Payload,
    posts (trace (snd (cycle out cfg shift_index fuel w))) = posts (trace w) ++ ps
    /\ (length ps <= 10)%nat
    /\ forall p, In p ps -> checkin_of_run out cfg fuel p.
Proof.
  destruct (cycle_pair cfg shift_index) as [[device shift] |] eqn:Hpair.
  - unfold cycle_pair in Hpair.
    destruct (nth_error (devices cfg) (shift_index mod length (devices cfg))%nat)
      as [d |] eqn:Hd; [| discriminate].
    destruct (nth_error (SHIFT cfg) (shift_index mod length (SHIFT cfg))%nat)
      as [sh |] eqn:Hs; [| discriminate].
    injection Hpair as -> ->.
    rewrite (cycle_unfold _ fuel w Hd Hs).
    destruct (process_events _ _ fuel
                (emit (Print (MsgProcessing (device_id device) shift)) w) Hd Hs)
      as (evs & Ht & _ & Hp & _).
    rewrite trace_emit, <- app_assoc in Ht.
    assert (Hw1 : forall w1 : world St,
               trace w1 = trace w ++ [Print (MsgProcessing (device_id device) shift)] ++ evs ->
               posts (trace w1) = posts (trace w)).
    { intros w1 H1. rewrite H1, !posts_app, Hp. cbn. apply app_nil_r. }
    destruct (process_and_merge_biometric_with_employee_data out cfg (devices cfg)
                shift_index fuel (emit (Print (MsgProcessing (device_id device) shift)) w))
      as [[[[| row df] |] | e |] w1] eqn:Hproc; cbn [snd] in Ht; cbn [snd].
    + exists []. rewrite !trace_emit, !posts_app, (Hw1 _ Ht). cbn.
      rewrite !app_nil_r. split; [reflexivity |]. split; [lia | intros p []].
    + destruct (process_result _ _ _ _ Hproc)
        as (device' & shift' & device_data & emp_df & wa & _ & Hs' & _ & _ & He & Hdf).
      assert (shift' = shift) by congruence. subst shift'.
      remember (row :: df) as df0 eqn:Hdf0. clear Hdf0.
      destruct (push_rows_posts_bounded 2 (firstn 5 df0)
                  (emit (Print (MsgFrame (firstn 5 df0))) w1)) as (ps & Hps & Hlen & Hin).
      exists ps. unfold push_data_to_erp. cbn [snd].
      rewrite trace_emit, posts_app, Hps, trace_emit, posts_app, (Hw1 _ Ht). cbn.
      rewrite !app_nil_r. split; [reflexivity |]. split.
      * pose proof (payloads_of_length (firstn 5 df0)) as H1.
        pose proof (firstn_le_length 5 df0) as H2.
        rewrite length_firstn in H1.
        change (Z.to_nat 2) with 2%nat in Hlen. lia.
      * intros p Hp'. apply Hin in Hp'. apply payloads_of_in in Hp'.
        destruct Hp' as (r & e & Hr & Hre & Hpe).
        exists shift, device_data, emp_df, wa, w1, r, e.
        split; [eapply nth_error_In; exact Hs |]. split; [exact He |].
        split; [| auto]. rewrite <- Hdf. eapply in_firstn; exact Hr.
    + exists []. rewrite !trace_emit, !posts_app, (Hw1 _ Ht). cbn.
      rewrite !app_nil_r. split; [reflexivity |]. split; [lia | intros p []].
    + exists []. rewrite (Hw1 _ Ht), app_nil_r.
      split; [reflexivity |]. split; [simpl; lia | intros p []].
    + exists []. rewrite (Hw1 _ Ht), app_nil_r.
      split; [reflexivity |]. split; [simpl; lia | intros p []].
  - destruct (cycle_without_pair shift_index fuel w Hpair) as [e He]. rewrite He.
    exists []. rewrite app_nil_r. split; [reflexivity |]. split; [simpl; lia | intros p []].
Qed.

(** What the loop posts from the counter [i] on, whatever its outcome. *)
Lemma main_loop_from_posts (fuel k : nat) :
  forall (i : nat) (w : world St),
    (i + k = length (devices cfg))%nat ->
    exists ps : list Payload,
      posts (trace (snd (main_loop_from out cfg fuel i w))) = posts (trace w) ++ ps
      /\ (length ps <= 10 * k)%nat
      /\ forall p, In p ps -> checkin_of_run out cfg fuel p.
Proof.
  induction k as [| k IH]; intros i w Hik.
  - rewrite main_loop_from_exit by lia. exists [].
    cbn [snd]. rewrite trace_emit, posts_app. cbn.
    split; [reflexivity |]. split; [lia | intros p []].
  - rewrite main_loop_from_step by lia.
    destruct (cycle_posts i fuel w) as (ps1 & Hps1 & Hlen1 & Hin1).
    destruct (cycle out cfg i fuel w) as [[[] | e |] w1]; cbn [snd] in Hps1.
    + destruct (IH (S i) w1 ltac:(lia)) as (ps2 & Hps2 & Hlen2 & Hin2).
      exists (ps1 ++ ps2). rewrite Hps2, Hps1, <- app_assoc.
      split; [reflexivity |]. split; [rewrite length_app; lia |].
      intros p Hp. apply in_app_or in Hp. destruct Hp; auto.
    + exists ps1. split; [exact Hps1 |]. split; [lia | exact Hin1].
    + exists ps1. split; [exact Hps1 |]. split; [lia | exact Hin1].
Qed.

(** X15.  A run posts at most ten requests for each configured device (the
    first five rows of its cycle, two attempts each), whatever the outcome of
    the run. *)
Theorem main_loop_posts_at_most_ten_per_device (fuel : nat) (w : world St) :
  (length (posts (trace (snd (main_loop out cfg fuel w))))
   <= length (posts (trace w)) + 10 * length (devices cfg))%nat.
Proof.
  unfold main_loop.
  destruct (@main_loop_from_posts fuel (length (devices cfg)) 0%nat w eq_refl)
    as (ps & Hps & Hlen & _).
  rewrite Hps, length_app. lia.
Qed.


Lemma fetch_employee_data_empty (fuel : nat) (wa wb : world St) (emp_df : list Employee) :
  (forall limit_start limit_page_length s,
      records_of (fst (session_get out limit_start limit_page_length s)) = []) ->
  fetch_employee_data out fuel wa = (Ok emp_df, wb) -> emp_df = [].
Proof.
  intros Hdown. unfold fetch_employee_data, bind.
  destruct fuel as [| fuel]; [discriminate |]. cbn [fetch_pages]. unfold call.
  pose proof (Hdown 0 limit_page_length (outside wa)) as H0.
  destruct (session_get out 0 limit_page_length (outside wa)) as [[| [[| e l] |]] s1];
    cbn [fst records_of] in H0; try discriminate H0; unfold ret; intros H; inversion H;
    reflexivity.
Qed.

(** X17.  When the backend gives no roster record (every roster request
    fails, lacks the ['data'] key or comes back empty), a run posts
    nothing: every merged row has a null employee and is skipped. *)
Theorem main_loop_posts_nothing_without_roster (fuel : nat) (w : world St) :
  (forall limit_start limit_page_length s,
      records_of (fst (session_get out limit_start limit_page_length s)) = []) ->
  posts (trace (snd (main_loop out cfg fuel w))) = posts (trace w).
Proof.
  intros Hdown. unfold main_loop.
  destruct (@main_loop_from_posts fuel (length (devices cfg)) 0%nat w eq_refl)
    as (ps & Hps & _ & Hin).
  rewrite Hps. destruct ps as [| p ps]; [apply app_nil_r |]. exfalso.
  destruct (Hin p (or_introl eq_refl))
    as (shift & device_data & emp_df & wa & wb & row & e & _ & Hf & Hrow & He & _).
  apply (fetch_employee_data_empty _ _ Hdown) in Hf. subst emp_df.
  unfold merge_and_filter in Hrow. apply filter_In in Hrow. destruct Hrow as [Hrow _].
  apply pd_merge_left_rows in Hrow. destruct Hrow as (a & _ & Hrow).
  destruct (rows_of_joined _ _ _ _ Hrow) as (_ & _ & Hjoin).
  destruct Hjoin as [(rec & [] & _) | (_ & Hnull & _)]. congruence.
Qed.

(** X18.  With no device configured the run ends at once: it reports
    completion and does nothing else, whatever the shift list.  With devices
    and an empty shift list it raises [ZeroDivisionError] in the first cycle
    before anything is done. *)
Theorem main_loop_on_empty_configuration (fuel : nat) (w : world St) :
  (devices cfg = [] -> main_loop out cfg fuel w = (Ok tt, emit (Print MsgCompleted) w))
  /\ (devices cfg <> [] -> SHIFT cfg = [] ->
      main_loop out cfg fuel w = (Raise ZeroDivisionError, w)).
Proof.
  unfold main_loop. split.
  - intros Hd. apply main_loop_from_exit. rewrite Hd. simpl. lia.
  - intros Hd Hs. rewrite main_loop_from_step
      by (destruct (devices cfg); [congruence | simpl; lia]).
    assert (Hc : cycle out cfg 0 fuel w = (Raise ZeroDivisionError, w)).
    { unfold cycle. unfold bind at 1.
      destruct (@nth_error_mod_some _ (devices cfg) 0%nat Hd) as [device Hdev].
      rewrite (index_mod_some _ _ w Hdev). unfold bind at 1. rewrite Hs. reflexivity. }
    rewrite Hc. reflexivity.
Qed.

End Properties.

(** ** The properties on the site *)

Module SiteRuns.

Import Site.

(** The claim of C1 as the specification words it fails on the site: the
    engine keeps the event of user 9, whose employee is null. *)
Lemma process_result_has_null_employee :
  ~ (forall (df : DataFrame) (w' : world nat),
        process_and_merge_biometric_with_employee_data (office 200) config
          (devices config) 0 2 start = (Ok (Some df), w') ->
        forall r : Row, In r df ->
          row_employee r <> None
          /\ START_DATE config <= row_timestamp r <= END_DATE config).
Proof.
  intros H.
  assert (Hrun : process_and_merge_biometric_with_employee_data (office 200) config
                   (devices config) 0 2 start
                 = (Ok (Some merged),
                    snd (process_and_merge_biometric_with_employee_data (office 200) config
                           (devices config) 0 2 start)))
    by (vm_compute; reflexivity).
  destruct (H _ _ Hrun unknown_user_row) as [Hnull _].
  - vm_compute. auto.
  - apply Hnull. reflexivity.
Qed.

Lemma process_result_in_window_witness :
  START_DATE config <= row_timestamp unknown_user_row <= END_DATE config.
Proof.
  apply (@process_result_in_window nat (office 200) config (devices config) 0%nat 2%nat start
           (snd (process_and_merge_biometric_with_employee_data (office 200) config
                   (devices config) 0 2 start))
           merged).
  - vm_compute. reflexivity.
  - vm_compute. auto.
Defined.

Lemma push_data_to_erp_retry_exhaustion_witness :
  posts (trace (push_row (office 500) 2 first_row
                  (push_rows (office 500) 2 [unknown_user_row] start)))
  = posts (trace (push_rows (office 500) 2 [unknown_user_row] start))
    ++ repeat (payload_of "E1" first_row) (Z.to_nat 2).
Proof.
  apply (@push_data_to_erp_retry_exhaustion nat (office 500) 2 [unknown_user_row] first_row
           [unknown_user_row] "E1" start).
  - intros p s. reflexivity.
  - lia.
  - reflexivity.
Defined.

Lemma date_filter_excludes_iff_outside_witness :
  In first_row (merge_and_filter config punches "S1" roster).
Proof.
  apply (@date_filter_excludes_iff_outside config punches "S1" roster first_row).
  - vm_compute. auto.
  - simpl. lia.
  - left. reflexivity.
Defined.

Lemma push_data_to_erp_skips_null_employee_witness :
  posts (trace (push_row (office 200) 2 unknown_user_row
                  (push_rows (office 200) 2 [first_row] start)))
  = posts (trace (push_rows (office 200) 2 [first_row] start)).
Proof.
  apply (@push_data_to_erp_skips_null_employee nat (office 200) 2 [first_row]
           unknown_user_row [first_row] start).
  reflexivity.
Defined.

Lemma cycle_submits_first_five_witness :
  cycle (office 200) config 0 2 start
  = (Ok tt,
     emit (Sleep 5)
       (snd (push_data_to_erp (office 200) (firstn 5 merged) 2
               (emit (Print (MsgFrame (firstn 5 merged)))
                  (snd (process_and_merge_biometric_with_employee_data (office 200) config
                          (devices config) 0 2
                          (emit (Print (MsgProcessing "D1" "S1")) start))))))).
Proof.
  apply (@cycle_submits_first_five nat (office 200) config 0%nat 2%nat
           {| device_id := "D1"; ip := "10.0.0.1"; port := 4370 |} "S1" start
           (snd (process_and_merge_biometric_with_employee_data (office 200) config
                   (devices config) 0 2 (emit (Print (MsgProcessing "D1" "S1")) start)))
           merged).
  - reflexivity.
  - reflexivity.
  - vm_compute. reflexivity.
  - vm_compute. discriminate.
Defined.

Lemma zero_events_cycle_witness :
  fst (process_and_merge_biometric_with_employee_data (office 200) config
         (devices config) 1 2 start) = Ok None.
Proof.
  apply (@zero_events_cycle nat (office 200) config 1%nat 2%nat
           {| device_id := "D2"; ip := "10.0.0.2"; port := 4370 |} "S2" start 1%nat 2%nat).
  - simpl. lia.
  - reflexivity.
  - reflexivity.
  - reflexivity.
  - reflexivity.
  - reflexivity.
Defined.

(** The claim of C7 as the specification words it fails against a backend
    that never serves an empty page: the loop does not return. *)
Lemma main_loop_endless_roster :
  ~ (exists (fuel : nat) (w' : world nat),
        main_loop endless_roster config fuel start = (Ok tt, w')).
Proof.
  assert (Hpages : forall fuel limit_start all_data (w : world nat),
             fst (fetch_pages endless_roster fuel limit_start all_data w) = Diverge).
  { induction fuel as [| fuel IH]; intros limit_start all_data w; [reflexivity |].
    simpl. apply IH. }
  intros (fuel & w' & Hrun). unfold main_loop in Hrun.
  rewrite main_loop_from_step in Hrun by (simpl; lia).
  rewrite (@cycle_unfold nat endless_roster config 0%nat fuel
             {| device_id := "D1"; ip := "10.0.0.1"; port := 4370 |} "S1" start
             eq_refl eq_refl) in Hrun.
  rewrite (@process_unfold nat endless_roster config (devices config) 0%nat fuel
             {| device_id := "D1"; ip := "10.0.0.1"; port := 4370 |} "S1" _
             eq_refl eq_refl) in Hrun.
  assert (Hf : fetch_biometric_data endless_roster "10.0.0.1" 4370 180
                 (emit (Print (MsgProcessing "D1" "S1")) start)
               = (Ok punches,
                  snd (fetch_biometric_data endless_roster "10.0.0.1" 4370 180
                         (emit (Print (MsgProcessing "D1" "S1")) start))))
    by (vm_compute; reflexivity).
  cbn [ip device_id] in Hrun. rewrite Hf in Hrun.
  unfold punches in Hrun. cbv beta iota in Hrun.
  unfold fetch_employee_data, bind in Hrun.
  match type of Hrun with
  | context [fetch_pages endless_roster fuel ?ls ?acc ?w] =>
      pose proof (Hpages fuel ls acc w) as Hd;
      destruct (fetch_pages endless_roster fuel ls acc w) as [[l | e |] w1]
  end; simpl in Hd; try discriminate Hd.
  discriminate Hrun.
Qed.

Lemma main_loop_one_pass_witness :
  exists (fuel0 : nat) (w' : world nat),
    forall fuel, (fuel0 <= fuel)%nat -> main_loop (office 200) config fuel start = (Ok tt, w').
Proof.
  destruct (@main_loop_one_pass nat (office 200) config start) as (fuel0 & w' & pairs & H).
  - simpl. discriminate.
  - intros w. exists 2%nat. destruct w as [s t]. vm_compute. discriminate.
  - exists fuel0, w'. apply H.
Defined.

(** The claim of C8 as the specification words it fails on a terminal that
    fails at the retrieval and again at the end of the session: the adapter
    raises. *)
Lemma fetch_biometric_data_raises :
  fst (zk_get_attendance broken_terminal "10.0.0.1" 1%nat) = None
  /\ fst (fetch_biometric_data broken_terminal "10.0.0.1" 4370 180 start)
     = Raise DeviceException.
Proof. split; reflexivity. Qed.

Lemma fetch_biometric_data_swallows_errors_witness :
  fetch_biometric_data unreachable_terminal "10.0.0.1" 4370 180 start
  = (Ok [], {| outside := 1%nat;
               trace := [Connect "10.0.0.1" 4370 180; Print (MsgErrorFetching "10.0.0.1")] |})
  /\ fetch_biometric_data silent_terminal "10.0.0.1" 4370 180 start
     = (Ok [], {| outside := 3%nat;
                  trace := [Connect "10.0.0.1" 4370 180; GetAttendance "10.0.0.1";
                            Print (MsgErrorFetching "10.0.0.1"); Disconnect "10.0.0.1"] |})
  /\ exists m : message,
       trace (snd (fetch_biometric_data (office 200) "10.0.0.1" 4370 180 start))
       = [Connect "10.0.0.1" 4370 180; GetAttendance "10.0.0.1"; Print m;
          Disconnect "10.0.0.1"].
Proof.
  split; [| split].
  - apply (proj1 (@fetch_biometric_data_swallows_errors nat unreachable_terminal
                    "10.0.0.1" 4370 180 start) 1%nat).
    reflexivity.
  - apply (proj1 (proj2 (@fetch_biometric_data_swallows_errors nat silent_terminal
                           "10.0.0.1" 4370 180 start)) 1%nat 2%nat 3%nat);
      reflexivity.
  - apply (proj2 (proj2 (@fetch_biometric_data_swallows_errors nat (office 200)
                           "10.0.0.1" 4370 180 start)) 1%nat).
    reflexivity.
Defined.

Lemma process_same_inputs_same_result_witness :
  fst (process_and_merge_biometric_with_employee_data (office 200) config
         (devices config) 0 2 start)
  = fst (process_and_merge_biometric_with_employee_data (office 200) config
           (devices config) 0 3
           (snd (process_and_merge_biometric_with_employee_data (office 200) config
                   (devices config) 0 2 start))).
Proof.
  eapply (@process_same_inputs_same_result nat (office 200) config (devices config) 0%nat
            {| device_id := "D1"; ip := "10.0.0.1"; port := 4370 |} 2%nat 3%nat).
  - reflexivity.
  - vm_compute. reflexivity.
  - vm_compute. reflexivity.
  - vm_compute. reflexivity.
  - vm_compute. reflexivity.
Defined.

End SiteRuns.

(** ** Further properties on the site *)

Module SiteChecks.

Import Site SiteVariants.

Lemma fetch_employee_data_offsets_witness :
  exists n : nat,
    gets (trace (snd (fetch_employee_data (office 200) 2 start)))
    = gets (trace start) ++ map (fun k => (1000 * Z.of_nat k, 1000)) (seq 0 (S n)).
Proof.
  apply (@fetch_employee_data_offsets nat (office 200) 2%nat start
           (snd (fetch_employee_data (office 200) 2 start)) roster).
  vm_compute. reflexivity.
Defined.

Lemma fetch_employee_data_collects_pages_witness :
  fst (fetch_employee_data (office 200) 2 start)
  = Ok (flat_map (fun k => records_of (office_page (1000 * Z.of_nat k))) (seq 0 1)).
Proof.
  apply (@fetch_employee_data_collects_pages nat (office 200) office_page).
  - intros limit_start s. reflexivity.
  - intros k Hk. destruct k as [| k]; [vm_compute; discriminate | lia].
  - reflexivity.
  - lia.
Defined.


Lemma fetch_biometric_data_returns_device_events_witness :
  fst (fetch_biometric_data (office 200) "10.0.0.1" 4370 180 start)
  = Ok (punch_of 1 "1" 100 :: tl punches).
Proof.
  apply (@fetch_biometric_data_returns_device_events nat (office 200) "10.0.0.1" 4370 180
           start (punch_of 1 "1" 100) (tl punches)).
  exists 1%nat, 2%nat, 3%nat. repeat split; reflexivity.
Defined.

Lemma fetch_biometric_data_raises_only_at_disconnect_witness :
  exists s1 r s2 s3,
    zk_connect broken_terminal "10.0.0.1" 4370 180 (outside start) = (true, s1)
    /\ zk_get_attendance broken_terminal "10.0.0.1" s1 = (r, s2)
    /\ zk_disconnect broken_terminal "10.0.0.1" s2 = (false, s3).
Proof.
  apply (@fetch_biometric_data_raises_only_at_disconnect nat broken_terminal "10.0.0.1"
           4370 180 start DeviceException).
  reflexivity.
Defined.

Lemma process_connects_on_default_port_witness :
  connections (trace (snd (process_and_merge_biometric_with_employee_data (office 200)
                             config_other_port (devices config_other_port) 0 2 start)))
  = connections (trace start) ++ [("10.0.0.1", 4370, 180)].
Proof.
  apply (@process_connects_on_default_port nat (office 200) config_other_port
           (devices config_other_port) 0%nat 2%nat
           {| device_id := "D1"; ip := "10.0.0.1"; port := 5005 |} start).
  - reflexivity.
  - discriminate.
Defined.

Lemma process_raises_on_empty_configuration_witness :
  process_and_merge_biometric_with_employee_data (office 200) config_no_shift
    (devices config_no_shift) 0 2 start
  = (Raise ZeroDivisionError, start).
Proof.
  apply (@process_raises_on_empty_configuration nat (office 200) config_no_shift
           (devices config_no_shift) 0%nat 2%nat start).
  right. reflexivity.
Defined.

Lemma process_fetches_roster_iff_result_witness :
  @None DataFrame = None
  <-> gets (trace (snd (process_and_merge_biometric_with_employee_data (office 200) config
                          (devices config) 1 2 start)))
      = gets (trace start).
Proof.
  apply (@process_fetches_roster_iff_result nat (office 200) config (devices config)
           1%nat 2%nat start).
  vm_compute. reflexivity.
Defined.

Lemma process_rows_are_joined_witness :
  exists device shift device_data emp_df wa,
    nth_error (devices config) (0 mod length (devices config))%nat = Some device
    /\ nth_error (SHIFT config) (0 mod length (SHIFT config))%nat = Some shift
    /\ fetch_biometric_data (office 200) (ip device) 4370 180 start = (Ok device_data, wa)
    /\ fetch_employee_data (office 200) 2 wa
       = (Ok emp_df,
          snd (process_and_merge_biometric_with_employee_data (office 200) config
                 (devices config) 0 2 start))
    /\ forall r, In r merged ->
         row_shift r = shift
         /\ In (attendance_of r) device_data
         /\ ((exists e, In e emp_df
                        /\ attendance_device_id e = Some (row_attendance_device_id r)
                        /\ row_employee r = employee e
                        /\ row_employee_name r = employee_name e)
             \/ ((forall e, In e emp_df ->
                            attendance_device_id e <> Some (row_attendance_device_id r))
                 /\ row_employee r = None /\ row_employee_name r = None)).
Proof.
  apply (@process_rows_are_joined nat (office 200) config (devices config) 0%nat 2%nat start).
  vm_compute. reflexivity.
Defined.

Lemma merge_and_filter_one_row_per_event_witness :
  map attendance_of (merge_and_filter config punches "S1" roster)
  = filter (fun a => in_window config (timestamp a)) punches.
Proof.
  apply (@merge_and_filter_one_row_per_event config punches "S1" roster).
  cbn. repeat (constructor; [cbn; intuition discriminate |]). constructor.
Defined.

Lemma push_row_delivers_or_exhausts_witness :
  exists (k : nat) (evs : list event),
    trace (push_row (office 503) 2 first_row start) = trace start ++ evs
    /\ posts evs = repeat (payload_of "E1" first_row) k
    /\ ((added evs = ["E1"] /\ given_up evs = []
         /\ (1 <= k <= Z.to_nat 2)%nat /\ sleeps evs = repeat 2 (k - 1))
        \/ (added evs = [] /\ given_up evs = ["E1"]
            /\ k = Z.to_nat 2 /\ sleeps evs = repeat 2 k)).
Proof.
  apply (@push_row_delivers_or_exhausts nat (office 503) 2 first_row "E1" start).
  reflexivity.
Defined.

Lemma push_data_to_erp_without_retries_witness :
  snd (push_data_to_erp (office 200) [first_row; unknown_user_row] 0 start)
  = {| outside := 0%nat;
       trace := [Print (MsgFailedPush "E1" 0); Print MsgSkippingNaN] |}.
Proof.
  apply (@push_data_to_erp_without_retries nat (office 200) [first_row; unknown_user_row]
           0 start).
  lia.
Defined.


Lemma push_data_to_erp_posts_bounded_witness :
  exists ps : list Payload,
    posts (trace (snd (push_data_to_erp (office 503) merged 2 start)))
    = posts (trace start) ++ ps
    /\ (length ps <= Z.to_nat 2 * length (payloads_of merged))%nat
    /\ forall p, In p ps -> In p (payloads_of merged).
Proof.
  apply (@push_data_to_erp_posts_bounded nat (office 503) merged 2 start).
Defined.


Lemma main_loop_posts_nothing_without_roster_witness :
  posts (trace (snd (main_loop roster_down config 2 start))) = posts (trace start).
Proof.
  apply (@main_loop_posts_nothing_without_roster nat roster_down config 2%nat start).
  intros limit_start limit_page_length s. reflexivity.
Defined.

Lemma main_loop_on_empty_configuration_witness :
  main_loop (office 200) config_no_devices 2 start = (Ok tt, emit (Print MsgCompleted) start)
  /\ main_loop (office 200) config_no_shift 2 start = (Raise ZeroDivisionError, start).
Proof.
  split.
  - apply (proj1 (@main_loop_on_empty_configuration nat (office 200) config_no_devices
                    2%nat start)).
    reflexivity.
  - apply (proj2 (@main_loop_on_empty_configuration nat (office 200) config_no_shift
                    2%nat start)).
    + discriminate.
    + reflexivity.
Defined.

End SiteChecks.
